(** * mesa-llm examples: negotiation dialogue digest, SugarScape model tick

    A shallow embedding of
      - [examples/negotiation/agents.py] : [get_dialogue_history] and the
        role-wide tool managers of [SellerAgent] / [BuyerAgent];
      - [examples/sugarscrap_g1mt/model.py] : [SugarScapeModel.__init__]
        and [SugarScapeModel.step];
    together with the bilateral trade protocol of the specification, whose
    implementation ([Trader]) is not part of the inspected sources. *)

From Stdlib Require Import ZArith QArith Qabs Ascii.
From stdpp Require Import gmap strings list pretty.

Open Scope string_scope.
Open Scope list_scope.
Open Scope Z_scope.

(** ** Negotiation example: [get_dialogue_history] *)

Module Negotiation.

(** *** Python values that occur in memory payloads *)

(** An agent object: [type(o).__name__], [o.unique_id], and what [str(o)]
    yields (the default [object.__str__] depends on the run, so it is a field
    of the object rather than a function of the other two). *)
Record pyobj := PyObj {
  cls_name : string;
  unique_id : Z;
  obj_str : string
}.

Inductive pyval :=
  | PyNone
  | PyInt (z : Z)
  | PyStr (s : string)
  | PyAgent (o : pyobj).

(** [str(v)] *)
Definition py_str (v : pyval) : string :=
  match v with
  | PyNone => "None"
  | PyInt z => pretty z
  | PyStr s => s
  | PyAgent o => obj_str o
  end.

(** [entry.content]: a dict with string keys, or anything else. *)
Inductive pycontent :=
  | ContentDict (d : gmap string pyval)
  | ContentOther (v : pyval).

Record MemoryEntry := Entry { content : pycontent }.

(** [agent.memory]: the two attributes probed with [hasattr]; [None] stands
    for an attribute the backend does not have. *)
Record Memory := MkMemory {
  short_term_memory : option (list MemoryEntry);
  memory_entries : option (list MemoryEntry)
}.

Record Model := MkModel { agents : list pyobj }.

Record LLMAgent := MkAgent {
  self_obj : pyobj;
  memory : Memory;
  model : Model
}.

(** *** Python list slicing [l[start:]] *)

Definition slice_from {A} (start : Z) (l : list A) : list A :=
  let len := Z.of_nat (length l) in
  if bool_decide (start < 0)
  then drop (Z.to_nat (Z.max 0 (len + start))) l
  else drop (Z.to_nat start) l.

(** *** The extractor *)

Definition sentinel : string := "No recent dialogue.".

(** The separator of ["\n".join(dialogue)]. *)
Definition newline : string := String "010"%char "".

(** [next(a for a in agent.model.agents if a.unique_id == sender)];
    [None] is [StopIteration]. *)
Definition find_agent (agent : LLMAgent) (sender : Z) : option pyobj :=
  List.find (λ a, bool_decide (unique_id a = sender)) (agents (model agent)).

(** Lines 48-62: the label of a sender. *)
Definition sender_name (agent : LLMAgent) (sender : pyval) : string :=
  match sender with
  | PyAgent o => cls_name o +:+ " " +:+ pretty (unique_id o)
  | PyInt i =>
      match find_agent agent i with
      | Some agent_obj => cls_name agent_obj +:+ " " +:+ pretty i
      | None => "Agent " +:+ pretty i
      end
  | _ => py_str sender
  end.

(** Lines 43-64, the body of the loop after the [break] test: the line
    appended to [dialogue], if any. *)
Definition examine (agent : LLMAgent) (entry : MemoryEntry) : option string :=
  match content entry with
  | ContentDict d =>
      if bool_decide (is_Some (d !! "message")) then
        let sender := default (PyStr "Unknown") (d !! "sender") in
        let msg := default (PyStr "") (d !! "message") in
        Some ("- " +:+ sender_name agent sender +:+ ": " +:+ py_str msg)
      else None
  | ContentOther _ => None
  end.

(** Lines 37-64: the loop, over the entries in the order they are visited. *)
Fixpoint scan (agent : LLMAgent) (max_messages : Z)
    (entries : list MemoryEntry) (dialogue : list string) : list string :=
  match entries with
  | [] => dialogue
  | entry :: rest =>
      if bool_decide (max_messages ≤ Z.of_nat (length dialogue)) then dialogue
      else match examine agent entry with
           | Some line => scan agent max_messages rest (dialogue ++ [line])
           | None => scan agent max_messages rest dialogue
           end
  end.

(** Lines 25-29. *)
Definition memory_source (agent : LLMAgent) : option (list MemoryEntry) :=
  match short_term_memory (memory agent) with
  | Some stm => Some stm
  | None => memory_entries (memory agent)
  end.

(** Lines 35-37: the entries visited by the loop, most recent first. *)
Definition window (max_messages : Z) (source : list MemoryEntry)
  : list MemoryEntry :=
  let entries_to_check :=
    Z.min (Z.of_nat (length source)) (max_messages * 2) in
  slice_from (- entries_to_check) source.

(** Lines 22-67: [dialogue] after [dialogue.reverse()]. *)
Definition collected (agent : LLMAgent) (max_messages : Z) : list string :=
  let dialogue :=
    match memory_source agent with
    | Some ((_ :: _) as source) =>
        scan agent max_messages (reverse (window max_messages source)) []
    | _ => []
    end in
  reverse dialogue.

Definition get_dialogue_history (agent : LLMAgent) (max_messages : Z)
  : string :=
  match collected agent max_messages with
  | [] => sentinel
  | dialogue => String.concat newline dialogue
  end.

(** *** Vocabulary for the statements *)

(** ["k" in entry.content] for a dict payload. *)
Definition has_key (k : string) (entry : MemoryEntry) : bool :=
  match content entry with
  | ContentDict d => bool_decide (is_Some (d !! k))
  | ContentOther _ => false
  end.

(** The test of line 43. *)
Definition is_dialogue (entry : MemoryEntry) : bool := has_key "message" entry.

(** A payload with both a sender and a message text. *)
Definition structured_message (entry : MemoryEntry) : bool :=
  has_key "sender" entry && has_key "message" entry.

(** [entry.content.get(k, dflt)] *)
Definition content_get (k : string) (dflt : pyval) (entry : MemoryEntry)
  : pyval :=
  match content entry with
  | ContentDict d => default dflt (d !! k)
  | ContentOther _ => dflt
  end.

(** The digest line of an entry: its resolved sender label and its text. *)
Definition format_line (agent : LLMAgent) (entry : MemoryEntry) : string :=
  "- " +:+ sender_name agent (content_get "sender" (PyStr "Unknown") entry)
       +:+ ": " +:+ py_str (content_get "message" (PyStr "") entry).

(** The [n] most recent elements of a chronological list, oldest first. *)
Definition last_n {A} (n : nat) (l : list A) : list A :=
  drop (length l - n) l.

(** The memory holds nothing dialogue-shaped: no backend attribute, an empty
    store, or only entries that fail the test of line 43. *)
Definition no_dialogue (agent : LLMAgent) : Prop :=
  match memory_source agent with
  | None => True
  | Some source => Forall (λ e, is_dialogue e = false) source
  end.

(** *** The claims as the specification words them *)

(** Dialogue extraction determinism as worded: twelve structured messages
    and eight other entries, in any order, always yield the five most recent
    messages. *)
Definition five_most_recent_in_any_order : Prop :=
  ∀ agent source,
    memory_source agent = Some source →
    length (filter structured_message source) = 12%nat →
    length (filter (λ e, negb (is_dialogue e)) source) = 8%nat →
    collected agent 5 =
      format_line agent <$> last_n 5 (filter structured_message source).

(** The retention rule as worded: retained exactly when the payload has
    both a sender and a message text. *)
Definition retained_iff_sender_and_message : Prop :=
  ∀ agent e, is_Some (examine agent e) ↔ structured_message e.

(** [result] is a non-empty selection of the memory's dialogue lines, joined. *)
Definition joined_dialogue_lines (agent : LLMAgent)
    (source : list MemoryEntry) (result : string) : Prop :=
  ∃ lines,
    lines ≠ []
    ∧ Forall (λ line, ∃ e, e ∈ source ∧ is_dialogue e
                           ∧ line = format_line agent e) lines
    ∧ result = String.concat newline lines.

(** The failure mode as worded: the sentinel when the memory holds no
    dialogue, and joined dialogue lines in every other case. *)
Definition sentinel_exactly_without_dialogue : Prop :=
  ∀ agent mx,
    (no_dialogue agent → get_dialogue_history agent mx = sentinel)
    ∧ (∀ source, memory_source agent = Some source → ¬ no_dialogue agent →
       joined_dialogue_lines agent source (get_dialogue_history agent mx)).

End Negotiation.

(** ** Concrete memories used to exercise the digest *)

Module DialogueExamples.
Import Negotiation.

Definition seller2 : pyobj := PyObj "SellerAgent" 2 "<SellerAgent object>".
Definition buyer1 : pyobj := PyObj "BuyerAgent" 1 "<BuyerAgent object>".
Definition market : Model := MkModel [buyer1; seller2].

(** [{"sender": sender, "message": text}] *)
Definition msg_entry (sender : pyval) (text : string) : MemoryEntry :=
  Entry (ContentDict (<["sender" := sender]> {["message" := PyStr text]})).

(** [{"message": text}], no sender key. *)
Definition text_only_entry (text : string) : MemoryEntry :=
  Entry (ContentDict {["message" := PyStr text]}).

(** An observation: a payload that is not a message. *)
Definition observation : MemoryEntry :=
  Entry (ContentDict {["position" := PyInt 3]}).

Definition with_stm (source : list MemoryEntry) : LLMAgent :=
  MkAgent buyer1 (MkMemory (Some source) None) market.

(** Twelve messages [m1 .. m12] from seller 2. *)
Definition twelve_messages : list MemoryEntry :=
  (λ i : Z, msg_entry (PyInt 2) ("m" +:+ pretty i)) <$> seqZ 1 12.

(** All twelve messages first, then eight observations. *)
Definition messages_then_observations : list MemoryEntry :=
  twelve_messages ++ replicate 8 observation.

(** Eight observations first, then the twelve messages. *)
Definition observations_then_messages : list MemoryEntry :=
  replicate 8 observation ++ twelve_messages.

(** Observations and messages alternating, the last four messages in a row. *)
Definition interleaved : list MemoryEntry :=
  mjoin ((λ e, [observation; e]) <$> take 8 twelve_messages)
  ++ drop 8 twelve_messages.

(** One message, pushed out of the window by ten observations. *)
Definition stale_message : list MemoryEntry :=
  msg_entry (PyAgent seller2) "offer: 40" :: replicate 10 observation.

End DialogueExamples.

(** ** SugarScape example: [SugarScapeModel] *)

Module SugarScape.

(** *** Random sources

    A random source is a stream of raw words and a cursor into it.  Both the
    module-level functions of Python's [random] (the state of the process)
    and the generators owned by a model ([self.random], [self.rng]) are such
    sources; they differ only in who holds the state.  For [self.random] the
    words are the 32-bit outputs of CPython's generator (see [PythonRandom]
    below) and the draws of the shuffle follow CPython's algorithm. *)
Record Rng := MkRng { raw : nat → Z; cursor : nat }.

Definition next_raw (g : Rng) : Z * Rng :=
  (raw g (cursor g), MkRng (raw g) (S (cursor g))).

(** [randrange(n)], for [0 < n], on a source whose state is not known (the
    module-level [random], numpy's generator): one word per call, reduced to
    the range. *)
Definition randrange (n : Z) (g : Rng) : Z * Rng :=
  let '(r, g) := next_raw g in (r `mod` n, g).

(** [randint(a, b)]: an integer of [a .. b], both included. *)
Definition randint (a b : Z) (g : Rng) : Z * Rng :=
  let '(r, g) := randrange (b - a + 1) g in (a + r, g).

(** [choice(seq)] for a non-empty [seq]. *)
Definition choice {A} (dflt : A) (seq : list A) (g : Rng) : A * Rng :=
  let '(i, g) := randrange (Z.of_nat (length seq)) g in
  (nth (Z.to_nat i) seq dflt, g).

(** [rng.integers(low, high, size=(size,))] *)
Fixpoint integers (low high : Z) (size : nat) (g : Rng) : list Z * Rng :=
  match size with
  | O => ([], g)
  | S size =>
      let '(r, g) := randrange (high - low) g in
      let '(rs, g) := integers low high size g in
      (low + r :: rs, g)
  end.

(** [getrandbits(k)] for [0 < k <= 32]: the top [k] bits of the next
    32-bit word. *)
Definition getrandbits (k : Z) (g : Rng) : Z * Rng :=
  let '(w, g) := next_raw g in ((w `mod` 2 ^ 32) ≫ (32 - k), g).

(** [Random._randbelow(n)], CPython's [_randbelow_with_getrandbits]:
    [k = n.bit_length(); r = getrandbits(k);
     while r >= n: r = getrandbits(k)].
    The loop is run for at most [S fuel] words; a source that rejects them
    all (the generator of CPython does not) is cut short by a reduction. *)
Fixpoint randbelow_loop (fuel : nat) (n k : Z) (g : Rng) : Z * Rng :=
  let '(r, g) := getrandbits k g in
  if bool_decide (r < n) then (r, g)
  else match fuel with
       | O => (r `mod` n, g)
       | S fuel => randbelow_loop fuel n k g
       end.

Definition randbelow (n : Z) (g : Rng) : Z * Rng :=
  randbelow_loop 64 n (Z.log2 n + 1) g.

(** [x[i], x[j] = x[j], x[i]] *)
Definition swap {A} (i j : nat) (x : list A) : list A :=
  match x !! i, x !! j with
  | Some xi, Some xj => <[j := xi]> (<[i := xj]> x)
  | _, _ => x
  end.

(** [random.shuffle(x)]:
    [for i in reversed(range(1, len(x))): j = randbelow(i + 1); swap]. *)
Fixpoint shuffle_loop {A} (i : nat) (x : list A) (g : Rng) : list A * Rng :=
  match i with
  | O => (x, g)
  | S i' =>
      let '(j, g) := randbelow (Z.of_nat i + 1) g in
      shuffle_loop i' (swap i (Z.to_nat j) x) g
  end.

Definition shuffle {A} (x : list A) (g : Rng) : list A * Rng :=
  shuffle_loop (length x - 1) x g.

(** *** Agents *)

Inductive ResourceType := Sugar | Spice.

Record Resource := MkResource {
  r_unique_id : Z;
  max_capacity : Z;
  current_amount : Z;
  growback : Z;
  type : ResourceType;
  r_pos : Z * Z
}.

Record Trader := MkTrader {
  t_unique_id : Z;
  vision : Z;
  sugar : Z;
  spice : Z;
  metabolism_sugar : Z;
  metabolism_spice : Z;
  trade_partners : list Z;
  prices : list Q;
  t_pos : Z * Z
}.

Inductive Agent :=
  | AResource (r : Resource)
  | ATrader (t : Trader).

Definition unique_id (a : Agent) : Z :=
  match a with
  | AResource r => r_unique_id r
  | ATrader t => t_unique_id t
  end.

Definition is_trader (a : Agent) : bool :=
  match a with ATrader _ => true | AResource _ => false end.

Definition is_resource (a : Agent) : bool := negb (is_trader a).

Definition traders_of (l : list Agent) : list Trader :=
  omap (λ a, match a with ATrader t => Some t | AResource _ => None end) l.



(** Modelled from the spec: [Resource.regrow] is not in the inspected
    sources.  current_amount = min(max_capacity, current_amount + growback). *)
Definition regrow (r : Resource) : Resource :=
  MkResource (r_unique_id r) (max_capacity r)
    (Z.min (max_capacity r) (current_amount r + growback r))
    (growback r) (type r) (r_pos r).

(** *** The model *)

(** What the agents see and change: the agent set with the grid positions,
    and the harvest counters. *)
Record World := MkWorld {
  agents : list Agent;
  total_sugar_harvested : Z;
  total_spice_harvested : Z;
  step_sugar_harvest : Z;
  step_spice_harvest : Z
}.

(** One row of the data collector: the model reporters of lines 55-72 (the
    floating-point price reporter is left out). *)
Record Snapshot := MkSnapshot {
  Trader_Count : nat;
  Total_Sugar : Z;
  Total_Spice : Z;
  Trade_Volume : nat;
  Step_Sugar_Harvest : Z;
  Step_Spice_Harvest : Z
}.

Definition sum_Z (l : list Z) : Z := foldr Z.add 0 l.

Definition snapshot (w : World) : Snapshot :=
  let ts := traders_of (agents w) in
  MkSnapshot (length ts) (sum_Z (sugar <$> ts)) (sum_Z (spice <$> ts))
    (foldr Nat.add 0%nat ((λ t, length (trade_partners t)) <$> ts))
    (step_sugar_harvest w) (step_spice_harvest w).

(** The phases of a tick, as they are entered. *)
Inductive Event :=
  | EvReset
  | EvActivate (uid : Z)
  | EvCollect (row : Snapshot).

Record SugarScapeModel := MkModel {
  width : Z;
  height : Z;
  parallel_stepping : bool;   (* line 47 *)
  world : World;
  random : Rng;               (* [self.random], seeded by the model *)
  rng : Rng;                  (* [self.rng], seeded by the model *)
  datacollector : list Snapshot;
  log : list Event            (* ghost: the phases entered so far *)
}.

(** The inventories and trade logs of the traders of a model. *)
Definition inventories (m : SugarScapeModel)
  : list (Z * Z * Z * list Z * list Q) :=
  (λ t, (t_unique_id t, sugar t, spice t, trade_partners t, prices t))
    <$> traders_of (agents (world m)).

Section Run.

(** [random.Random(seed)] and [numpy.random.default_rng(seed)]: the sources
    that [Model.__init__(seed=seed)] creates for the model. *)
Variable seed_random : Z → Rng.
Variable seed_numpy : Z → Rng.

(** [Trader.step], with the decision-maker replaced by a deterministic stub:
    a function of the trader and of the state of the world. *)
Variable trader_step : Trader → World → World.

(** **** [__init__], lines 85-99: the resources *)

Definition new_resource (uid width height : Z) (ambient : Rng)
  : Resource * Rng :=
  let '(max_cap, ambient) := randint 2 5 ambient in
  let '(ty, ambient) := choice Sugar [Sugar; Spice] ambient in
  let '(x, ambient) := randrange width ambient in
  let '(y, ambient) := randrange height ambient in
  (MkResource uid max_cap max_cap 1 ty (x, y), ambient).

Fixpoint new_resources (n : nat) (next_id width height : Z) (ambient : Rng)
  : list Resource * Rng :=
  match n with
  | O => ([], ambient)
  | S n =>
      let '(r, ambient) := new_resource next_id width height ambient in
      let '(rs, ambient) :=
        new_resources n (next_id + 1) width height ambient in
      (r :: rs, ambient)
  end.

(** **** [__init__], lines 109-131: the traders *)

(** Lines 124-131 for one trader created by [Trader.create_agents]. *)
Definition init_trader (uid vision i j : Z) (ambient : Rng) : Trader * Rng :=
  let '(su, ambient) := randint 50 100 ambient in
  let '(sp, ambient) := randint 50 100 ambient in
  let '(ms, ambient) := randint 1 4 ambient in
  let '(mp, ambient) := randint 1 4 ambient in
  (MkTrader uid vision su sp ms mp [] [] (i, j), ambient).

(** [for agent, i, j in zip(agents, x_pos, y_pos)] *)
Fixpoint init_traders (uids x_pos y_pos : list Z) (vision : Z) (ambient : Rng)
  : list Trader * Rng :=
  match uids, x_pos, y_pos with
  | uid :: uids, i :: x_pos, j :: y_pos =>
      let '(t, ambient) := init_trader uid vision i j ambient in
      let '(ts, ambient) := init_traders uids x_pos y_pos vision ambient in
      (t :: ts, ambient)
  | _, _, _ => ([], ambient)
  end.

(** [SugarScapeModel(initial_traders, initial_resources, width, height, ...,
    vision, parallel_stepping, seed=seed)], run in a process whose [random]
    module is in state [ambient]; returns the model and the new state of the
    [random] module.  [parallel_stepping] is [True] when the caller does not
    give it.  [None]: the constructor raises (an empty grid leaves no range
    to draw a position from). *)
Definition init (initial_traders initial_resources : nat)
    (width height vision : Z) (parallel_stepping : bool) (seed : Z)
    (ambient : Rng)
  : option (SugarScapeModel * Rng) :=
  if bool_decide (0 < width ∧ 0 < height) then
    let random := seed_random seed in
    let rng := seed_numpy seed in
    let '(resources, ambient) :=
      new_resources initial_resources 1 width height ambient in
    let uids := seqZ (1 + Z.of_nat initial_resources)
                     (Z.of_nat initial_traders) in
    let '(x_pos, rng) := integers 0 width initial_traders rng in
    let '(y_pos, rng) := integers 0 height initial_traders rng in
    let '(traders, ambient) := init_traders uids x_pos y_pos vision ambient in
    Some (MkModel width height parallel_stepping
            (MkWorld ((AResource <$> resources) ++ (ATrader <$> traders))
                     0 0 0 0)
            random rng [] [],
          ambient)
  else None.

(** **** [step], lines 133-147 *)

Definition set_world (w : World) (m : SugarScapeModel) : SugarScapeModel :=
  MkModel (width m) (height m) (parallel_stepping m) w (random m) (rng m)
    (datacollector m) (log m).

Definition set_random (g : Rng) (m : SugarScapeModel) : SugarScapeModel :=
  MkModel (width m) (height m) (parallel_stepping m) (world m) g (rng m)
    (datacollector m) (log m).

Definition logged (e : Event) (m : SugarScapeModel) : SugarScapeModel :=
  MkModel (width m) (height m) (parallel_stepping m) (world m) (random m)
    (rng m) (datacollector m) (log m ++ [e]).

(** Lines 138-139. *)
Definition reset_world (w : World) : World :=
  MkWorld (agents w) (total_sugar_harvested w) (total_spice_harvested w) 0 0.

Definition reset_counters (m : SugarScapeModel) : SugarScapeModel :=
  set_world (reset_world (world m)) (logged EvReset m).

(** The step of a resource: it regrows where it stands. *)
Definition resource_step (uid : Z) (w : World) : World :=
  MkWorld
    ((λ a, match a with
           | AResource r =>
               if bool_decide (r_unique_id r = uid) then AResource (regrow r)
               else a
           | ATrader _ => a
           end) <$> agents w)
    (total_sugar_harvested w) (total_spice_harvested w)
    (step_sugar_harvest w) (step_spice_harvest w).

(** [getattr(agent, "step")()] for the agent with identity [uid], in its
    state at the time of the call; an agent no longer in the set is skipped. *)
Definition agent_step (uid : Z) (w : World) : World :=
  match List.find (λ a, bool_decide (unique_id a = uid)) (agents w) with
  | Some (AResource _) => resource_step uid w
  | Some (ATrader t) => trader_step t w
  | None => w
  end.

Definition activate (m : SugarScapeModel) (uid : Z) : SugarScapeModel :=
  set_world (agent_step uid (world m)) (logged (EvActivate uid) m).

(** Modelled from the spec: the stepping that the library puts in the place
    of the shuffle for a model with [parallel_stepping] set is not in the
    inspected sources.  It starts the agents in the order of the agent set
    and draws nothing; with a synchronous stub for the decision the agents'
    changes are serialised in that order. *)
Definition parallel_order (m : SugarScapeModel) : list Z * Rng :=
  (unique_id <$> agents (world m), random m).

(** The order in which [shuffle_do] calls the agents: the order of the agent
    set for a model with [parallel_stepping], and otherwise the agent set
    shuffled with the model's own [random]. *)
Definition activation_order (m : SugarScapeModel) : list Z * Rng :=
  if parallel_stepping m then parallel_order m
  else shuffle (unique_id <$> agents (world m)) (random m).

(** Line 145: [self.agents.shuffle_do("step")]. *)
Definition shuffle_do (m : SugarScapeModel) : SugarScapeModel :=
  let '(order, g) := activation_order m in
  foldl activate (set_random g m) order.

(** Line 147: [self.datacollector.collect(self)]. *)
Definition collect (m : SugarScapeModel) : SugarScapeModel :=
  let row := snapshot (world m) in
  MkModel (width m) (height m) (parallel_stepping m) (world m) (random m)
    (rng m) (datacollector m ++ [row]) (log m ++ [EvCollect row]).

Definition step (m : SugarScapeModel) : SugarScapeModel :=
  collect (shuffle_do (reset_counters m)).

(** **** Reading the log of a tick *)

(** The phases entered by the tick that starts in [m]. *)
Definition tick_log (m : SugarScapeModel) : list Event :=
  drop (length (log m)) (log (step m)).

Definition activations (l : list Event) : list Z :=
  omap (λ e, match e with EvActivate uid => Some uid | _ => None end) l.

(** Whether [uid] is the identity of a resource of [w]. *)
Definition names_resource (w : World) (uid : Z) : bool :=
  match List.find (λ a, bool_decide (unique_id a = uid)) (agents w) with
  | Some a => is_resource a
  | None => false
  end.

(** The flagged activations all come first, or all come last. *)
Definition one_phase (flags : list bool) : bool :=
  bool_decide (flags = List.filter id flags ++ List.filter negb flags)
  || bool_decide (flags = List.filter negb flags ++ List.filter id flags).

(** Regrowth as the specification words it: within every tick the resources
    regrow in one phase, before or after all the traders' activations. *)
Definition regrow_in_one_phase : Prop :=
  ∀ m, one_phase (names_resource (world m) <$> activations (tick_log m)).

End Run.

(** Scheduler determinism as the specification words it: the final
    inventories and trade logs are a function of the seed, the configuration
    and the decision-maker stub, whatever the state of the process. *)
Definition seeded_runs_agree (seed_random seed_numpy : Z → Rng)
    (stub : Trader → World → World) : Prop :=
  ∀ (initial_traders initial_resources ticks : nat)
    (width height vision : Z) (parallel_stepping : bool) (seed : Z)
    (ambient1 ambient2 : Rng),
    (λ '(m, _), inventories (Nat.iter ticks (step stub) m))
      <$> init seed_random seed_numpy initial_traders initial_resources
               width height vision parallel_stepping seed ambient1
    = (λ '(m, _), inventories (Nat.iter ticks (step stub) m))
      <$> init seed_random seed_numpy initial_traders initial_resources
               width height vision parallel_stepping seed ambient2.


End SugarScape.

(** ** [random.Random(seed)]: CPython's generator

    [Model.__init__(seed=seed)] creates [self.random = random.Random(seed)],
    a Mersenne Twister (MT19937) seeded through [init_by_array] with the
    32-bit digits of [abs(seed)]. *)

Module PythonRandom.
Import SugarScape.

Definition u32 (z : Z) : Z := z `mod` 2 ^ 32.

(** [mt[i]] *)
Definition word (mt : list Z) (i : nat) : Z := default 0 (mt !! i).

(** [init_genrand(s)]:
    [mt[i] = 1812433253 * (mt[i-1] ^ (mt[i-1] >> 30)) + i]. *)
Fixpoint init_genrand_loop (count : nat) (i prev : Z) : list Z :=
  match count with
  | O => []
  | S count =>
      let x := u32 (1812433253 * Z.lxor prev (prev ≫ 30) + i) in
      x :: init_genrand_loop count (i + 1) x
  end.

Definition init_genrand (s : Z) : list Z :=
  u32 s :: init_genrand_loop 623 1 (u32 s).

(** [if (i >= N) { mt[0] = mt[N-1]; i = 1; }] *)
Definition wrap (mt : list Z) (i : nat) : list Z * nat :=
  if bool_decide (624 ≤ i)%nat then (<[0%nat := word mt 623]> mt, 1%nat)
  else (mt, i).

(** The first loop of [init_by_array]. *)
Fixpoint mix_key (k : nat) (key mt : list Z) (i j : nat) : list Z * nat :=
  match k with
  | O => (mt, i)
  | S k =>
      let prev := word mt (i - 1) in
      let x := u32 (Z.lxor (word mt i) (Z.lxor prev (prev ≫ 30) * 1664525)
                    + word key j + Z.of_nat j) in
      let '(mt, i) := wrap (<[i := x]> mt) (S i) in
      let j := if bool_decide (length key ≤ S j)%nat then 0%nat else S j in
      mix_key k key mt i j
  end.

(** The second loop of [init_by_array]. *)
Fixpoint mix_index (k : nat) (mt : list Z) (i : nat) : list Z :=
  match k with
  | O => mt
  | S k =>
      let prev := word mt (i - 1) in
      let x := u32 (Z.lxor (word mt i) (Z.lxor prev (prev ≫ 30) * 1566083941)
                    - Z.of_nat i) in
      let '(mt, i) := wrap (<[i := x]> mt) (S i) in
      mix_index k mt i
  end.

Definition init_by_array (key : list Z) : list Z :=
  let '(mt, i) :=
    mix_key (624 `max` length key) key (init_genrand 19650218) 1 0 in
  <[0%nat := 2 ^ 31]> (mix_index 623 mt i).

(** The 32-bit digits of [n], least significant first. *)
Fixpoint digits (fuel : nat) (n : Z) : list Z :=
  match fuel with
  | O => []
  | S fuel =>
      if bool_decide (n = 0) then [] else u32 n :: digits fuel (n ≫ 32)
  end.

(** [random_seed]: the key of an integer seed, at least one digit. *)
Definition key_of_seed (seed : Z) : list Z :=
  match digits (S (Z.to_nat (Z.log2 (Z.abs seed)))) (Z.abs seed) with
  | [] => [0]
  | key => key
  end.

(** The regeneration of the 624 words, in place ([genrand_uint32]). *)
Fixpoint twist_loop (count kk : nat) (mt : list Z) : list Z :=
  match count with
  | O => mt
  | S count =>
      let y := Z.lor (Z.land (word mt kk) 0x80000000)
                     (Z.land (word mt (S kk `mod` 624)) 0x7fffffff) in
      let x := Z.lxor (Z.lxor (word mt ((kk + 397) `mod` 624)) (y ≫ 1))
                      (if Z.odd y then 0x9908b0df else 0) in
      twist_loop count (S kk) (<[kk := x]> mt)
  end.

Definition twist (mt : list Z) : list Z := twist_loop 624 0 mt.

(** The tempering of an output word. *)
Definition temper (y : Z) : Z :=
  let y := Z.lxor y (y ≫ 11) in
  let y := Z.lxor y (Z.land (u32 (y ≪ 7)) 0x9d2c5680) in
  let y := Z.lxor y (Z.land (u32 (y ≪ 15)) 0xefc60000) in
  Z.lxor y (y ≫ 18).

(** The output words [624 * block .. 624 * block + 623] of the generator
    seeded with [seed]. *)
Definition words (seed : Z) (block : nat) : list Z :=
  temper <$> Nat.iter (S block) twist (init_by_array (key_of_seed seed)).

(** [random.Random(seed)], before any draw. *)
Definition Random (seed : Z) : Rng :=
  let first := words seed 0 in
  MkRng (λ k, if bool_decide (k < 624)%nat then word first k
              else word (words seed (k `div` 624)) (k `mod` 624)) 0.

End PythonRandom.

(** ** Concrete generators, stubs and models for the SugarScape example *)

Module SugarScapeExamples.
Import SugarScape.

(** A source that yields the words of a table, then zeros. *)
Definition table (words : list Z) : Rng := MkRng (λ n, nth n words 0) 0.

(** A small multiplicative generator, standing for the seeded sources. *)
Definition toy_stream (salt seed : Z) (n : nat) : Z :=
  (((seed + salt) * 2654435761 + Z.of_nat n * 40503) `mod` 4294967296) ≫ 7.

Definition toy_random (seed : Z) : Rng := MkRng (toy_stream 1 seed) 0.
Definition toy_numpy (seed : Z) : Rng := MkRng (toy_stream 2 seed) 0.

(** A trader that does nothing. *)
Definition idle (t : Trader) (w : World) : World := w.

(** A trader that harvests one unit of sugar wherever it stands. *)
Definition harvest_one (t : Trader) (w : World) : World :=
  MkWorld
    ((λ a, match a with
           | ATrader t' =>
               if bool_decide (t_unique_id t' = t_unique_id t)
               then ATrader (MkTrader (t_unique_id t') (vision t')
                               (sugar t' + 1) (spice t')
                               (metabolism_sugar t') (metabolism_spice t')
                               (trade_partners t') (prices t') (t_pos t'))
               else a
           | AResource _ => a
           end) <$> agents w)
    (total_sugar_harvested w + 1) (total_spice_harvested w)
    (step_sugar_harvest w + 1) (step_spice_harvest w).

(** [SugarScapeModel(initial_traders=2, initial_resources=1, width=5,
    height=5, vision=1, seed=seed)], with [parallel_stepping] left at its
    default, in a process whose [random] module is in
    state [ambient]. *)
Definition small_model (seed : Z) (ambient : Rng)
  : option (SugarScapeModel * Rng) :=
  init toy_random toy_numpy 2 1 5 5 1 true seed ambient.

(** The model built by [small_model]. *)
Definition built (seed : Z) (ambient : Rng) : SugarScapeModel :=
  match small_model seed ambient with
  | Some (m, _) => m
  | None => MkModel 0 0 true (MkWorld [] 0 0 0 0) (table []) (table []) [] []
  end.

(** [SugarScapeModel(initial_traders=2, initial_resources=1, width=5,
    height=5, vision=1, parallel_stepping=parallel_stepping, seed=seed)]
    with CPython's generator as [self.random], in a process whose [random]
    module is in state [table []]. *)
Definition seeded_model (parallel_stepping : bool) (seed : Z)
  : SugarScapeModel :=
  match init PythonRandom.Random toy_numpy 2 1 5 5 1 parallel_stepping seed
             (table []) with
  | Some (m, _) => m
  | None => MkModel 0 0 true (MkWorld [] 0 0 0 0) (table []) (table []) [] []
  end.


(** The resource of [built seed (table [])]. *)
Definition resource1 : Agent := AResource (MkResource 1 2 2 1 Sugar (0, 0)).

(** [n] ticks after construction. *)
Definition run (stub : Trader → World → World) (n : nat) (seed : Z)
    (ambient : Rng) : option SugarScapeModel :=
  (λ '(m, _), Nat.iter n (step stub) m) <$> small_model seed ambient.

End SugarScapeExamples.

(** ** SugarScape example: helpers and readings of the model *)

Module ModelReadings.
Import SugarScape.

(** [flatten], lines 15-20:
    [[item for sublist in list_of_lists for item in sublist]]. *)
Definition flatten {A} (list_of_lists : list (list A)) : list A :=
  sublist ← list_of_lists; item ← sublist; [item].

(** The argument of [geometric_mean] in the "Price" reporter, lines 67-69:
    [flatten([a.prices for a in m.agents if isinstance(a, Trader)])]. *)
Definition price_samples (w : World) : list Q :=
  flatten (prices <$> traders_of (agents w)).

Definition resources_of (l : list Agent) : list Resource :=
  omap (λ a, match a with AResource r => Some r | ATrader _ => None end) l.

(** A cell of the grid [width] by [height]. *)
Definition in_grid (width height : Z) (pos : Z * Z) : Prop :=
  0 ≤ pos.1 < width ∧ 0 ≤ pos.2 < height.

(** Lines 86-97 for one resource. *)
Definition fresh_resource (width height : Z) (r : Resource) : Prop :=
  2 ≤ max_capacity r ≤ 5 ∧ current_amount r = max_capacity r
  ∧ growback r = 1 ∧ in_grid width height (r_pos r).

(** [g'] is [g] after [k] more draws. *)
Definition advanced (k : nat) (g g' : Rng) : Prop :=
  raw g' = raw g ∧ cursor g' = (cursor g + k)%nat.

(** The events of one kind in a log. *)
Definition resets (l : list Event) : nat :=
  length (omap (λ e, match e with EvReset => Some () | _ => None end) l).

Definition collects (l : list Event) : nat :=
  length (omap (λ e, match e with EvCollect row => Some row | _ => None end) l).

End ModelReadings.

(** ** [docs/testing_model.py]: [LanguageAgent] and [LanguageModel] *)

Module TestingModel.
Import SugarScape.

(** Lines 25-29: the prompt of the agent with identity [unique_id]. *)
Definition prompt (unique_id : Z) : string :=
  "You are agent " +:+ pretty unique_id
  +:+ " in a simple market simulation. "
  +:+ "Other agents are trading and negotiating. "
  +:+ "Describe your next action in one short sentence.".

(** The model: its agents by identity, [self.random], and what the process
    has exchanged so far: the prompts sent to the language model and the
    lines printed. *)
Record LanguageModel := MkLanguageModel {
  agents : list Z;
  random : Rng;
  requests : list string;
  stdout : list string
}.

Section Llama.

(** [random.Random(seed)], as created by [Model.__init__(seed=seed)]. *)
Variable seed_random : Z → Rng.

(** [ollama.chat(model="llama3", messages=[...])["message"]["content"]
    .strip()] for the request number [k] of the process and its prompt. *)
Variable reply : nat → string → string.

(** Lines 48-54: [LanguageModel(n_agents, seed)]. *)
Definition init (n_agents : nat) (seed : Z) : LanguageModel :=
  MkLanguageModel (seqZ 1 (Z.of_nat n_agents)) (seed_random seed) [] [].

(** Lines 18-37: [LanguageAgent.step]. *)
Definition agent_step (m : LanguageModel) (unique_id : Z) : LanguageModel :=
  let text := reply (length (requests m)) (prompt unique_id) in
  MkLanguageModel (agents m) (random m)
    (requests m ++ [prompt unique_id])
    (stdout m ++ ["Agent " +:+ pretty unique_id +:+ ": " +:+ text]).

(** Lines 56-63: [self.agents.shuffle_do("step")]. *)
Definition step (m : LanguageModel) : LanguageModel :=
  let '(order, g) := shuffle (agents m) (random m) in
  foldl agent_step
    (MkLanguageModel (agents m) g (requests m) (stdout m)) order.

End Llama.

End TestingModel.

(** ** Negotiation example: the tool managers of the two roles *)

Module NegotiationAgents.

(** A [ToolManager] object: its registry, tool name to description. *)
Record ToolManager := MkToolManager { tools : gmap string string }.

(** The objects of the process, by address. *)
Abbreviation heap := (gmap nat ToolManager).

(** [ToolManager()]: a new object at an address not yet in use. *)
Definition new_tool_manager (h : heap) : nat * heap :=
  let l := fresh (dom h) in (l, <[l := MkToolManager ∅]> h).

(** The module-level names of [agents.py]. *)
Record Globals := MkGlobals {
  seller_tool_manager : nat;
  buyer_tool_manager : nat
}.

(** Lines 4-5, run once, when the module is imported. *)
Definition import_module (h : heap) : Globals * heap :=
  let '(s, h) := new_tool_manager h in
  let '(b, h) := new_tool_manager h in
  (MkGlobals s b, h).

Inductive Role :=
  | Seller (sales : Z)
  | Buyer (budget : Z) (products : list string).

(** An agent of the example: the model it belongs to, the reference it holds
    in [self.tool_manager], and the state of its role. *)
Record Agent := MkAgent {
  model : nat;
  tool_manager : nat;
  role : Role
}.

(** [SellerAgent.__init__], lines 90-91. *)
Definition SellerAgent_init (g : Globals) (model : nat) : Agent :=
  MkAgent model (seller_tool_manager g) (Seller 0).

(** [BuyerAgent.__init__], lines 149-151. *)
Definition BuyerAgent_init (g : Globals) (model : nat) (budget : Z) : Agent :=
  MkAgent model (buyer_tool_manager g) (Buyer budget []).

(** A mutation [f] of the registry made through [a.tool_manager]. *)
Definition mutate_through (a : Agent) (f : gmap string string → gmap string string)
    (h : heap) : heap :=
  alter (λ tm, MkToolManager (f (tools tm))) (tool_manager a) h.

(** The registry that [a] sees through [a.tool_manager]. *)
Definition registry_of (a : Agent) (h : heap) : option (gmap string string) :=
  tools <$> h !! tool_manager a.

End NegotiationAgents.

(** ** Trade protocol *)

Module TradeProtocol.
Local Open Scope Q_scope.

(** Modelled from the spec: the [Trader] class and its negotiation are not in
    the inspected sources.  What follows is section 4.4 of the specification,
    over the rationals; the price rule (a geometric mean), the tolerance, the
    quantum and the iteration cap are parameters. *)
Record TradeRecord := MkTradeRecord {
  partner : Z;
  price : Q;
  quantity : Q
}.

Record Trader := MkTrader {
  identity : Z;
  inventory_A : Q;
  inventory_B : Q;
  metabolism_A : Q;
  metabolism_B : Q;
  trade_log : list TradeRecord;
  price_history : list Q
}.

(** Modelled from the spec: [compute_mrs], section 4.3;
    [None] is [DivisionUndefined]. *)
Definition compute_mrs (t : Trader) : option Q :=
  if Qeq_bool (metabolism_A t) 0 || Qeq_bool (metabolism_B t) 0
     || Qeq_bool (inventory_B t) 0
  then None
  else Some ((inventory_A t / metabolism_A t)
             / (inventory_B t / metabolism_B t)).

Section Protocol.

Variable tolerance : Q.
Variable price_rule : Q → Q → Q.
Variable quantum : Q.

(** Step 7: [q] of good A to the buyer, [q * p] of good B to the seller, and a
    record in both logs and price histories. *)
Definition receive (t : Trader) (with_ : Z) (dA dB p q : Q) : Trader :=
  MkTrader (identity t) (inventory_A t + dA) (inventory_B t + dB)
    (metabolism_A t) (metabolism_B t)
    (trade_log t ++ [MkTradeRecord with_ p q]) (price_history t ++ [p]).

Definition transfer (buyer seller : Trader) (p q : Q) : Trader * Trader :=
  (receive buyer (identity seller) q (- (q * p)) p q,
   receive seller (identity buyer) (- q) (q * p) p q).

(** Step 5: no stock goes negative, and no recomputed MRS crosses the other
    party's MRS of before the trade. *)
Definition feasible (buyer' seller' : Trader) (m_buyer m_seller : Q) : bool :=
  Qle_bool 0 (inventory_A seller') && Qle_bool 0 (inventory_B buyer')
  && match compute_mrs buyer', compute_mrs seller' with
     | Some mb', Some ms' => Qle_bool m_seller mb' && Qle_bool ms' m_buyer
     | _, _ => false
     end.

(** Steps 3-5 and 7 for a pair whose direction is settled. *)
Definition attempt (buyer seller : Trader) (m_buyer m_seller : Q)
  : option (Trader * Trader) :=
  let p := price_rule m_buyer m_seller in
  let '(buyer', seller') := transfer buyer seller p quantum in
  if feasible buyer' seller' m_buyer m_seller then Some (buyer', seller')
  else None.

(** Steps 1-5 and 7: one increment between [a] and [b]; [None] when no
    trade takes place. *)
Definition increment (a b : Trader) : option (Trader * Trader) :=
  match compute_mrs a, compute_mrs b with
  | Some ma, Some mb =>
      if Qle_bool (Qabs (ma - mb)) tolerance then None
      else if Qle_bool mb ma
      then attempt a b ma mb
      else (λ '(b', a'), (a', b')) <$> attempt b a mb ma
  | _, _ => None
  end.

(** Step 6: increments until none is found or the cap is reached. *)
Fixpoint negotiate (cap : nat) (a b : Trader) : Trader * Trader :=
  match cap with
  | O => (a, b)
  | S cap =>
      match increment a b with
      | Some (a', b') => negotiate cap a' b'
      | None => (a, b)
      end
  end.

End Protocol.

(** The pair holds the same totals of both goods in [after] as in [before]. *)
Definition conserved (before after : Trader * Trader) : Prop :=
  inventory_A after.1 + inventory_A after.2
    == inventory_A before.1 + inventory_A before.2
  ∧ inventory_B after.1 + inventory_B after.2
    == inventory_B before.1 + inventory_B before.2.

(** The two traders of the specification's example, and a price rule: a few
    Newton steps towards the square root of the product. *)
Definition poor_in_A : Trader := MkTrader 1 10 90 1 1 [] [].
Definition rich_in_A : Trader := MkTrader 2 90 10 1 1 [] [].

Fixpoint newton_sqrt (n : nat) (x g : Q) : Q :=
  match n with
  | O => g
  | S n => newton_sqrt n x (Qred ((g + x / g) / 2))
  end.

Definition geometric_mean (m1 m2 : Q) : Q := newton_sqrt 5 (m1 * m2) 1.

End TradeProtocol.

(** * Properties of the dialogue digest *)

Module NegotiationFacts.
Import Negotiation DialogueExamples.

Lemma examine_spec agent e :
  examine agent e = if is_dialogue e then Some (format_line agent e) else None.
Proof.
  unfold examine, is_dialogue, has_key, format_line, content_get.
  destruct (content e) as [d|v]; [|done].
  by case_bool_decide.
Qed.

Lemma omap_examine agent (l : list MemoryEntry) :
  omap (examine agent) l = format_line agent <$> filter is_dialogue l.
Proof.
  induction l as [|e l IH]; [done|].
  rewrite filter_cons. cbn [omap list_omap]. rewrite examine_spec, IH.
  destruct (is_dialogue e); by simpl.
Qed.

(** The loop appends, in visiting order, the lines of the dialogue entries it
    meets, until [max_messages] lines are held. *)
Lemma scan_spec agent mx (es : list MemoryEntry) acc :
  scan agent mx es acc =
  acc ++ take (Z.to_nat mx - length acc) (omap (examine agent) es).
Proof.
  revert acc. induction es as [|e es IH]; intros acc.
  { cbn. by rewrite take_nil, app_nil_r. }
  cbn [scan]. case_bool_decide as Hfull.
  { replace (Z.to_nat mx - length acc)%nat with 0%nat by lia.
    by rewrite take_0, app_nil_r. }
  cbn [omap list_omap]. destruct (examine agent e) as [line|].
  - rewrite IH, length_app, <- app_assoc. cbn [length app]. f_equal.
    replace (Z.to_nat mx - length acc)%nat
      with (S (Z.to_nat mx - (length acc + 1)))%nat by lia.
    done.
  - apply IH.
Qed.

Lemma reverse_take_reverse {A} (n : nat) (l : list A) :
  reverse (take n (reverse l)) = last_n n l.
Proof. unfold last_n. by rewrite take_reverse, reverse_involutive. Qed.

Lemma omap_reverse {A B} (f : A → option B) (l : list A) :
  omap f (reverse l) = reverse (omap f l).
Proof.
  induction l as [|x l IH]; [done|].
  rewrite reverse_cons, omap_app, IH. cbn [omap list_omap].
  destruct (f x); cbn [app]; [by rewrite reverse_cons|by rewrite app_nil_r].
Qed.

(** What is collected: the lines of the most recent [max_messages] dialogue
    entries of the window, oldest first. *)
Lemma collected_spec agent mx source :
  memory_source agent = Some source →
  collected agent mx =
  format_line agent <$>
    last_n (Z.to_nat mx) (filter is_dialogue (window mx source)).
Proof.
  intros Hsrc. unfold collected. rewrite Hsrc.
  destruct source as [|e0 source'].
  { unfold last_n, window, slice_from. cbn.
    case_bool_decide; by rewrite ?drop_nil. }
  rewrite scan_spec. cbn [app length]. rewrite Nat.sub_0_r.
  rewrite omap_reverse, reverse_take_reverse, omap_examine.
  unfold last_n. by rewrite fmap_drop, length_fmap.
Qed.

Lemma window_positive mx (source : list MemoryEntry) :
  0 < mx → window mx source = last_n (Z.to_nat (mx * 2)) source.
Proof.
  intros Hmx. unfold window, slice_from, last_n.
  destruct source as [|e source]; [by rewrite !drop_nil; case_bool_decide|].
  case_bool_decide as Hneg; [|cbn [length] in *; lia].
  f_equal. lia.
Qed.

Lemma last_n_app_ge {A} (n : nat) (l1 l2 : list A) :
  (n ≤ length l2)%nat → last_n n (l1 ++ l2) = last_n n l2.
Proof.
  intros Hn. unfold last_n. rewrite length_app, drop_app.
  replace (length l1 + length l2 - n - length l1)%nat
    with (length l2 - n)%nat by lia.
  rewrite drop_ge by lia. done.
Qed.

(** Enough dialogue inside the window: the window hides nothing. *)
Lemma last_n_filter_window (P : MemoryEntry → bool) (n k : nat)
    (l : list MemoryEntry) :
  (n ≤ length (filter P (last_n k l)))%nat →
  last_n n (filter P (last_n k l)) = last_n n (filter P l).
Proof.
  intros Hn.
  assert (filter P l
          = filter P (take (length l - k) l) ++ filter P (last_n k l)) as ->.
  { unfold last_n. by rewrite <- filter_app, take_drop. }
  by rewrite last_n_app_ge.
Qed.

Lemma filter_none_iff {A} (P : A → bool) (l : list A) :
  filter P l = [] ↔ Forall (λ e, P e = false) l.
Proof.
  induction l as [|x l IH]; [by split|].
  rewrite filter_cons, Forall_cons. case_decide as HP.
  - split; [done|]. intros [HF _]. by rewrite HF in HP.
  - rewrite IH. apply Is_true_false in HP. tauto.
Qed.

Lemma history_of_collected agent mx :
  get_dialogue_history agent mx =
  if decide (collected agent mx = []) then sentinel
  else String.concat newline (collected agent mx).
Proof.
  unfold get_dialogue_history. by destruct (collected agent mx).
Qed.

Lemma no_dialogue_collected agent mx :
  no_dialogue agent → collected agent mx = [].
Proof.
  unfold no_dialogue. intros Hno.
  destruct (memory_source agent) as [source|] eqn:Hsrc.
  - rewrite (collected_spec _ _ _ Hsrc).
    assert (filter is_dialogue (window mx source) = []) as ->; [|done].
    apply filter_none_iff.
    unfold window, slice_from. case_bool_decide; by apply Forall_drop.
  - unfold collected. by rewrite Hsrc.
Qed.

(** ** The claims about [get_dialogue_history] *)

(** C2, counterexample: with the twelve messages followed by the eight
    observations the window of ten entries holds two messages only, and the
    digest has two lines, not five. *)
Lemma five_most_recent_fails_behind_observations :
  ¬ five_most_recent_in_any_order.
Proof.
  intros Hclaim.
  specialize (Hclaim (with_stm messages_then_observations)
                     messages_then_observations eq_refl eq_refl eq_refl).
  vm_compute in Hclaim. discriminate Hclaim.
Qed.

(** C2, amended: the digest for [max_messages = 5] is made of the most recent
    dialogue entries found among the ten most recent entries, at most five,
    oldest first, each formatted with its resolved sender label; when at
    least five of the ten most recent entries are dialogue entries these are
    exactly the five most recent dialogue entries of the whole memory; with
    no dialogue entry at all the result is the sentinel. *)
Theorem five_most_recent_within_window agent source :
  memory_source agent = Some source →
  collected agent 5 =
    format_line agent <$> last_n 5 (filter is_dialogue (last_n 10 source))
  ∧ ((5 ≤ length (filter is_dialogue (last_n 10 source)))%nat →
     length (collected agent 5) = 5%nat
     ∧ collected agent 5 =
         format_line agent <$> last_n 5 (filter is_dialogue source)
     ∧ get_dialogue_history agent 5 =
         String.concat newline
           (format_line agent <$> last_n 5 (filter is_dialogue source)))
  ∧ (filter is_dialogue source = [] →
     get_dialogue_history agent 5 = sentinel).
Proof.
  intros Hsrc.
  assert (collected agent 5 =
    format_line agent <$> last_n 5 (filter is_dialogue (last_n 10 source)))
    as Hcol.
  { rewrite (collected_spec _ _ _ Hsrc), window_positive by lia. done. }
  split; [exact Hcol|]. split.
  - intros Hfive.
    assert (length (collected agent 5) = 5%nat) as Hlen.
    { rewrite Hcol, length_fmap. unfold last_n at 1.
      rewrite length_drop. lia. }
    rewrite history_of_collected, Hcol, last_n_filter_window by done.
    rewrite Hcol, last_n_filter_window in Hlen by done.
    split; [done|]. split; [done|].
    case_decide as Hnil; [|done]. by rewrite Hnil in Hlen.
  - intros Hnone. rewrite history_of_collected, no_dialogue_collected; [done|].
    unfold no_dialogue. rewrite Hsrc. by apply filter_none_iff.
Qed.

(** The amended statement at the alternating memory: messages m8 .. m12. *)
Lemma five_most_recent_within_window_witness :
  memory_source (with_stm interleaved) = Some interleaved
  ∧ (5 ≤ length (filter is_dialogue (last_n 10 interleaved)))%nat
  ∧ get_dialogue_history (with_stm interleaved) 5 =
      String.concat newline
        (format_line (with_stm interleaved) <$> drop 7 twelve_messages).
Proof.
  split; [reflexivity|]. split; [vm_compute; lia|].
  destruct (five_most_recent_within_window (with_stm interleaved) interleaved
              eq_refl) as (_ & Hfive & _).
  destruct Hfive as (_ & _ & Hhist); [vm_compute; lia|].
  rewrite Hhist. reflexivity.
Defined.

(** C3, counterexample: a payload with a message text and no sender is
    retained, under the label "Unknown". *)
Lemma entry_without_sender_is_retained :
  ¬ retained_iff_sender_and_message.
Proof.
  intros Hclaim.
  destruct (Hclaim (with_stm []) (text_only_entry "hi")) as [Hretained _].
  assert (is_Some (examine (with_stm []) (text_only_entry "hi"))) as Hsome
    by (by eexists).
  apply Hretained in Hsome. vm_compute in Hsome. exact Hsome.
Qed.

(** C3, amended: an entry examined by the loop (the digest is not yet full)
    is retained if and only if its payload is a dict with a message text; its
    line is then appended to the digest; the sender is not required, and a
    payload without one is retained under the label "Unknown". *)
Theorem retained_iff_message_text agent mx e rest acc :
  Z.of_nat (length acc) < mx →
  (is_Some (examine agent e) ↔ is_dialogue e)
  ∧ scan agent mx (e :: rest) acc =
      scan agent mx rest
        (if is_dialogue e then acc ++ [format_line agent e] else acc)
  ∧ (is_dialogue e → format_line agent e ∈ scan agent mx (e :: rest) acc)
  ∧ (is_dialogue e → has_key "sender" e = false →
     examine agent e =
       Some ("- Unknown: " +:+ py_str (content_get "message" (PyStr "") e))).
Proof.
  intros Hroom.
  assert (scan agent mx (e :: rest) acc =
          scan agent mx rest
            (if is_dialogue e then acc ++ [format_line agent e] else acc))
    as Hstep.
  { cbn [scan]. rewrite bool_decide_false by lia.
    rewrite examine_spec. by destruct (is_dialogue e). }
  split; [|split; [exact Hstep|split]].
  - rewrite examine_spec. by destruct (is_dialogue e).
  - intros Hd. rewrite Hstep, scan_spec.
    destruct (is_dialogue e); [|done].
    apply elem_of_app. left. apply elem_of_app. right. by apply list_elem_of_singleton.
  - intros Hd Hns. rewrite examine_spec.
    destruct (is_dialogue e); [|done]. f_equal.
    unfold format_line, content_get, has_key in *.
    destruct (content e) as [d|v]; [|done].
    case_bool_decide as Hs; [done|].
    assert (d !! "sender" = None) as ->; [|done].
    destruct (d !! "sender"); [|done]. destruct Hs. by eexists.
Qed.

(** The amended statement at a payload without sender. *)
Lemma retained_iff_message_text_witness :
  scan (with_stm []) 5 [text_only_entry "hi"] [] = ["- Unknown: hi"]
  ∧ examine (with_stm []) (text_only_entry "hi") = Some "- Unknown: hi".
Proof.
  destruct (retained_iff_message_text (with_stm []) 5 (text_only_entry "hi")
              [] []) as (_ & Hstep & _ & Hunknown); [cbn; lia|].
  split; [rewrite Hstep; reflexivity|].
  rewrite Hunknown; reflexivity.
Defined.

Lemma find_agent_Some agent i a :
  find_agent agent i = Some a → a ∈ agents (model agent) ∧ unique_id a = i.
Proof.
  unfold find_agent. intros Hfind. apply find_some in Hfind as [Hin Hid].
  split; [by apply list_elem_of_In|]. by apply bool_decide_eq_true in Hid.
Qed.

Lemma find_agent_None agent i :
  find_agent agent i = None ↔
  ∀ a, a ∈ agents (model agent) → unique_id a ≠ i.
Proof.
  unfold find_agent. split.
  - intros Hfind a Hin Hid.
    pose proof (find_none _ _ Hfind a (proj1 (list_elem_of_In _ _) Hin)) as Hf.
    cbn in Hf. apply bool_decide_eq_false in Hf. done.
  - intros Hnone.
    destruct (List.find _ _) as [a|] eqn:Hfind; [|done].
    apply find_some in Hfind as [Hin Hid].
    apply bool_decide_eq_true in Hid.
    destruct (Hnone a); [by apply list_elem_of_In|done].
Qed.

(** With distinct identities the lookup finds the agent itself. *)
Lemma find_agent_NoDup agent a :
  NoDup (unique_id <$> agents (model agent)) →
  a ∈ agents (model agent) →
  find_agent agent (unique_id a) = Some a.
Proof.
  unfold find_agent. induction (agents (model agent)) as [|b l IH];
    intros Hnd Hin; [by apply elem_of_nil in Hin|].
  cbn [List.find]. rewrite fmap_cons in Hnd. apply NoDup_cons in Hnd as [Hb Hnd].
  apply elem_of_cons in Hin as [->|Hin].
  { by rewrite bool_decide_true. }
  rewrite bool_decide_false; [by apply IH|].
  intros Heq. apply Hb. rewrite Heq. by apply list_elem_of_fmap_2.
Qed.

(** C6: the label of a retained entry's sender.  An agent reference gives
    its kind and identity; a bare identity is looked up among the model's
    agents and gives the kind of the agent found (the agent itself when
    identities are distinct); a lookup that finds no agent gives the generic
    label "Agent <id>"; in every case a line is produced. *)
Theorem sender_label_resolution agent :
  (∀ o, sender_name agent (PyAgent o)
        = cls_name o +:+ " " +:+ pretty (unique_id o))
  ∧ (∀ i a, find_agent agent i = Some a →
       a ∈ agents (model agent) ∧ unique_id a = i
       ∧ sender_name agent (PyInt i) = cls_name a +:+ " " +:+ pretty i)
  ∧ (∀ a, NoDup (unique_id <$> agents (model agent)) →
       a ∈ agents (model agent) →
       sender_name agent (PyInt (unique_id a))
       = cls_name a +:+ " " +:+ pretty (unique_id a))
  ∧ (∀ i, (∀ a, a ∈ agents (model agent) → unique_id a ≠ i) →
       sender_name agent (PyInt i) = "Agent " +:+ pretty i)
  ∧ (∀ e, is_dialogue e →
       examine agent e =
         Some ("- " +:+ sender_name agent
                          (content_get "sender" (PyStr "Unknown") e)
                    +:+ ": " +:+ py_str (content_get "message" (PyStr "") e))).
Proof.
  split; [done|]. split; [|split; [|split]].
  - intros i a Hfind. destruct (find_agent_Some _ _ _ Hfind) as [Hin Hid].
    cbn [sender_name]. by rewrite Hfind.
  - intros a Hnd Hin. cbn [sender_name]. by rewrite find_agent_NoDup.
  - intros i Hnone. cbn [sender_name].
    by rewrite (proj2 (find_agent_None agent i) Hnone).
  - intros e Hd. rewrite examine_spec. by destruct (is_dialogue e).
Qed.

(** The three kinds of sender in one market: an agent reference, the identity
    of a present agent, an identity nobody has. *)
Lemma sender_label_resolution_witness :
  sender_name (with_stm []) (PyAgent seller2) = "SellerAgent 2"
  ∧ sender_name (with_stm []) (PyInt 1) = "BuyerAgent 1"
  ∧ sender_name (with_stm []) (PyInt 7) = "Agent 7"
  ∧ examine (with_stm []) (msg_entry (PyInt 7) "deal?")
    = Some "- Agent 7: deal?".
Proof.
  destruct (sender_label_resolution (with_stm []))
    as (Href & Hfound & Hnodup & Hmiss & Hline).
  assert (∀ a, a ∈ agents (model (with_stm [])) → unique_id a ≠ 7) as Hnobody.
  { intros a Hin. apply list_elem_of_In in Hin.
    destruct Hin as [<-|[<-|[]]]; discriminate. }
  split; [rewrite Href; reflexivity|].
  split.
  { change 1 with (unique_id buyer1). rewrite Hnodup; [reflexivity|..].
    - apply NoDup_ListNoDup. repeat constructor; cbn; intuition discriminate.
    - apply list_elem_of_In. left. reflexivity. }
  split; [rewrite Hmiss; [reflexivity|exact Hnobody]|].
  rewrite Hline; reflexivity.
Defined.

(** C7, counterexample: a memory that does hold a message, ten entries back,
    yields the sentinel all the same. *)
Lemma sentinel_despite_stale_message :
  ¬ sentinel_exactly_without_dialogue.
Proof.
  intros Hclaim.
  destruct (Hclaim (with_stm stale_message) 5) as [_ Hjoined].
  destruct (Hjoined stale_message eq_refl) as (lines & Hne & Hall & Hres).
  { unfold no_dialogue. cbn. intros Hno. by inversion Hno. }
  destruct lines as [|line lines]; [done|].
  apply Forall_cons in Hall as [(e & Hin & Hd & ->) _].
  assert (e = msg_entry (PyAgent seller2) "offer: 40") as ->.
  { unfold stale_message in Hin. apply elem_of_cons in Hin as [->|Hin]; [done|].
    apply elem_of_replicate in Hin as [-> _]. done. }
  vm_compute in Hres. destruct lines; discriminate Hres.
Qed.

(** C7, amended: the function is total; it returns the sentinel exactly when
    nothing was collected, which is the case when the memory backend is
    missing, empty or without dialogue entry, and also when [max_messages] is
    not positive or every dialogue entry lies outside the window of the
    [2 * max_messages] most recent entries; otherwise it returns the collected
    lines, the most recent [max_messages] dialogue entries of the window,
    oldest first, joined by newlines. *)
Theorem sentinel_iff_nothing_collected agent mx :
  (no_dialogue agent → get_dialogue_history agent mx = sentinel)
  ∧ (mx ≤ 0 → get_dialogue_history agent mx = sentinel)
  ∧ (collected agent mx = [] → get_dialogue_history agent mx = sentinel)
  ∧ (collected agent mx ≠ [] →
     get_dialogue_history agent mx = String.concat newline (collected agent mx))
  ∧ (∀ source, memory_source agent = Some source →
     collected agent mx =
       format_line agent <$>
         last_n (Z.to_nat mx) (filter is_dialogue (window mx source))).
Proof.
  split; [|split; [|split; [|split]]].
  - intros Hno. by rewrite history_of_collected, no_dialogue_collected.
  - intros Hmx. rewrite history_of_collected.
    assert (collected agent mx = []) as ->; [|done].
    destruct (memory_source agent) as [source|] eqn:Hsrc.
    + rewrite (collected_spec _ _ _ Hsrc). unfold last_n.
      replace (Z.to_nat mx) with 0%nat by lia.
      by rewrite Nat.sub_0_r, drop_all.
    + unfold collected. by rewrite Hsrc.
  - intros Hnil. by rewrite history_of_collected, Hnil.
  - intros Hne. rewrite history_of_collected. by case_decide.
  - intros source Hsrc. by apply collected_spec.
Qed.

(** The amended statement at a missing backend, at a stale message, at
    [max_messages = 0], and at a memory with recent messages. *)
Lemma sentinel_iff_nothing_collected_witness :
  get_dialogue_history (MkAgent buyer1 (MkMemory None None) market) 5
    = sentinel
  ∧ get_dialogue_history (with_stm stale_message) 5 = sentinel
  ∧ get_dialogue_history (with_stm interleaved) 0 = sentinel
  ∧ get_dialogue_history (with_stm interleaved) 2
    = "- SellerAgent 2: m11" +:+ newline +:+ "- SellerAgent 2: m12".
Proof.
  split.
  { destruct (sentinel_iff_nothing_collected
                (MkAgent buyer1 (MkMemory None None) market) 5) as [Hno _].
    apply Hno. exact I. }
  split.
  { destruct (sentinel_iff_nothing_collected (with_stm stale_message) 5)
      as (_ & _ & Hnil & _).
    apply Hnil. reflexivity. }
  split.
  { destruct (sentinel_iff_nothing_collected (with_stm interleaved) 0)
      as (_ & Hmx & _).
    apply Hmx. lia. }
  destruct (sentinel_iff_nothing_collected (with_stm interleaved) 2)
    as (_ & _ & _ & Hjoin & _).
  rewrite Hjoin; [reflexivity|]. vm_compute. discriminate.
Defined.

End NegotiationFacts.

(** * Properties of the SugarScape model *)

Module SugarScapeFacts.
Import SugarScape SugarScapeExamples.

(** ** Random draws stay in their range *)

Lemma randrange_bounds n g : 0 < n → 0 ≤ (randrange n g).1 < n.
Proof. intros Hn. cbn. by apply Z.mod_pos_bound. Qed.

Lemma randint_bounds a b g : a ≤ b → a ≤ (randint a b g).1 ≤ b.
Proof.
  intros Hab. unfold randint.
  pose proof (randrange_bounds (b - a + 1) g) as Hr.
  destruct (randrange (b - a + 1) g) as [r g']. cbn in *. lia.
Qed.

(** ** [random.shuffle] permutes *)

Lemma swap_Permutation {A} (i j : nat) (x : list A) : swap i j x ≡ₚ x.
Proof.
  unfold swap. destruct (x !! i) as [xi|] eqn:Hi; [|done].
  destruct (x !! j) as [xj|] eqn:Hj; [|done].
  by apply Permutation_insert_swap.
Qed.

Lemma shuffle_loop_Permutation {A} (i : nat) (x : list A) g :
  (shuffle_loop i x g).1 ≡ₚ x.
Proof.
  revert x g. induction i as [|i IH]; intros x g; [done|].
  cbn [shuffle_loop]. destruct (randbelow _ g) as [j g'].
  rewrite IH. apply swap_Permutation.
Qed.

Lemma shuffle_Permutation {A} (x : list A) g : (shuffle x g).1 ≡ₚ x.
Proof. apply shuffle_loop_Permutation. Qed.

(** A value of a duplicate-free list occurs in it once. *)
Lemma once_in_NoDup (x : Z) (l : list Z) :
  NoDup l → x ∈ l → length (filter (λ y, y = x) l) = 1%nat.
Proof.
  induction l as [|y l IH]; intros Hnd Hin; [by apply elem_of_nil in Hin|].
  apply NoDup_cons in Hnd as [Hy Hnd]. rewrite filter_cons.
  case_decide as Heq.
  - subst y. cbn. f_equal.
    destruct (filter (λ y, y = x) l) as [|z k] eqn:Hf; [done|].
    assert (z ∈ filter (λ y, y = x) l) as Hz by (rewrite Hf; by left).
    apply list_elem_of_filter in Hz as [-> Hz]. done.
  - apply IH; [done|]. apply elem_of_cons in Hin as [->|Hin]; done.
Qed.

Section Tick.
Variable trader_step : Trader → World → World.

Local Abbreviation step := (step trader_step).
Local Abbreviation activate := (activate trader_step).
Local Abbreviation agent_step := (agent_step trader_step).

(** ** The effect of a pass of activations *)

Lemma foldl_activate_log m order :
  log (foldl activate m order) = log m ++ (EvActivate <$> order).
Proof.
  revert m. induction order as [|uid order IH]; intros m; cbn.
  { by rewrite app_nil_r. }
  rewrite IH. cbn. by rewrite <- app_assoc.
Qed.

Lemma foldl_activate_world m order :
  world (foldl activate m order)
  = foldl (λ w uid, agent_step uid w) (world m) order.
Proof.
  revert m. induction order as [|uid order IH]; intros m; cbn; [done|].
  by rewrite IH.
Qed.

Lemma foldl_activate_datacollector m order :
  datacollector (foldl activate m order) = datacollector m.
Proof.
  revert m. induction order as [|uid order IH]; intros m; cbn; [done|].
  by rewrite IH.
Qed.

Lemma activation_order_reset m :
  activation_order (reset_counters m) = activation_order m.
Proof. done. Qed.

Lemma activation_order_Permutation m :
  (activation_order m).1 ≡ₚ unique_id <$> agents (world m).
Proof.
  unfold activation_order. destruct (parallel_stepping m); [done|].
  apply shuffle_Permutation.
Qed.

(** The log, the world and the collector after one tick. *)
Lemma step_unfold m :
  let order := (activation_order m).1 in
  let w := foldl (λ w uid, agent_step uid w) (reset_world (world m)) order in
  world (step m) = w
  ∧ log (step m)
    = log m ++ [EvReset] ++ (EvActivate <$> order) ++ [EvCollect (snapshot w)]
  ∧ datacollector (step m) = datacollector m ++ [snapshot w].
Proof.
  unfold step, shuffle_do. rewrite activation_order_reset.
  destruct (activation_order m) as [order g]. cbn [fst].
  unfold collect. cbn [world log datacollector].
  rewrite foldl_activate_world, foldl_activate_log,
    foldl_activate_datacollector.
  cbn. rewrite <- !app_assoc. done.
Qed.

Lemma tick_log_unfold m :
  let order := (activation_order m).1 in
  tick_log trader_step m
  = [EvReset] ++ (EvActivate <$> order)
      ++ [EvCollect (snapshot (world (step m)))].
Proof.
  cbn zeta. unfold tick_log.
  destruct (step_unfold m) as (Hw & Hlog & _). cbn zeta in Hw, Hlog.
  rewrite Hlog, Hw, drop_app_length. done.
Qed.

Lemma activations_tick_log m :
  activations (tick_log trader_step m) = (activation_order m).1.
Proof.
  rewrite tick_log_unfold. cbn zeta. unfold activations.
  rewrite !omap_app. cbn. rewrite app_nil_r.
  induction ((activation_order m).1) as [|uid l IH]; [done|].
  cbn. by rewrite IH.
Qed.

(** ** The claims about [SugarScapeModel.step] *)

(** C8: a tick enters its phases in this order: the harvest accumulators are
    reset (both are zero in the world handed to the first agent), then every
    agent is activated, then the data collector is called, once, as the last
    phase, on the world left by the last activation. *)
Theorem tick_resets_then_activates_then_collects m :
  let order := (activation_order m).1 in
  let fresh := reset_world (world m) in
  let final := foldl (λ w uid, agent_step uid w) fresh order in
  order ≡ₚ unique_id <$> agents (world m)
  ∧ step_sugar_harvest fresh = 0 ∧ step_spice_harvest fresh = 0
  ∧ world (step m) = final
  ∧ tick_log trader_step m
    = [EvReset] ++ (EvActivate <$> order) ++ [EvCollect (snapshot final)]
  ∧ datacollector (step m) = datacollector m ++ [snapshot final]
  ∧ length (datacollector (step m)) = S (length (datacollector m)).
Proof.
  cbn zeta. destruct (step_unfold m) as (Hw & Hlog & Hdc). cbn zeta in *.
  split; [apply activation_order_Permutation|].
  split; [done|]. split; [done|]. split; [exact Hw|].
  split; [by rewrite tick_log_unfold, Hw|].
  split; [exact Hdc|]. rewrite Hdc, length_app. cbn. lia.
Qed.

(** An agent of a set with distinct identities is found by its identity. *)
Lemma find_by_unique_id (l : list Agent) a :
  NoDup (unique_id <$> l) → a ∈ l →
  List.find (λ b, bool_decide (unique_id b = unique_id a)) l = Some a.
Proof.
  induction l as [|b l IH]; intros Hnd Hin; [by apply elem_of_nil in Hin|].
  cbn [List.find]. rewrite fmap_cons in Hnd.
  apply NoDup_cons in Hnd as [Hb Hnd].
  apply elem_of_cons in Hin as [->|Hin].
  { by rewrite bool_decide_true. }
  rewrite bool_decide_false; [by apply IH|].
  intros Heq. apply Hb. rewrite Heq. by apply list_elem_of_fmap_2.
Qed.

Lemma names_resource_agents w :
  NoDup (unique_id <$> agents w) →
  names_resource w <$> (unique_id <$> agents w) = is_resource <$> agents w.
Proof.
  intros Hnd. rewrite <- list_fmap_compose. apply Forall_fmap_ext.
  apply Forall_forall. intros a Hin. cbn. unfold names_resource.
  by rewrite find_by_unique_id.
Qed.

Lemma is_resource_resources_then_traders rs ts :
  is_resource <$> ((AResource <$> rs) ++ (ATrader <$> ts))
  = replicate (length rs) true ++ replicate (length ts) false.
Proof.
  rewrite fmap_app, <- !list_fmap_compose. f_equal.
  - induction rs as [|r rs IH]; [done|]. cbn. by f_equal.
  - induction ts as [|t ts IH]; [done|]. cbn. by f_equal.
Qed.

Lemma one_phase_true_then_false (n k : nat) :
  one_phase (replicate n true ++ replicate k false).
Proof.
  unfold one_phase.
  assert (List.filter id (replicate n true ++ replicate k false)
          = replicate n true) as ->.
  { rewrite List.filter_app.
    assert (List.filter id (replicate k false) = []) as ->
      by (induction k as [|k IH]; [done|]; by cbn).
    rewrite app_nil_r. induction n as [|n IH]; [done|]. cbn. by f_equal. }
  assert (List.filter negb (replicate n true ++ replicate k false)
          = replicate k false) as ->.
  { rewrite List.filter_app.
    assert (List.filter negb (replicate n true) = []) as ->
      by (induction n as [|n IH]; [done|]; by cbn).
    cbn. induction k as [|k IH]; [done|]. cbn. by f_equal. }
  by rewrite bool_decide_true.
Qed.

(** C4, amended: a tick has no regrow phase of its own; every agent of the
    set, resource or trader, is activated by the one pass of line 145, and
    with distinct identities each resource is activated exactly once per
    tick.  For a model with [parallel_stepping] (the default) the pass
    follows the order of the agent set, so that with the resources first in
    the set, as the constructor builds it, all resources are stepped before
    all traders; for a model without it the pass follows the shuffle of the
    agent set by [self.random]. *)
Theorem resources_step_in_the_activation_pass m :
  NoDup (unique_id <$> agents (world m)) →
  activations (tick_log trader_step m) ≡ₚ unique_id <$> agents (world m)
  ∧ (∀ a, a ∈ agents (world m) → is_resource a →
       length (filter (λ uid, uid = unique_id a)
                 (activations (tick_log trader_step m))) = 1%nat)
  ∧ (parallel_stepping m = true →
       activations (tick_log trader_step m) = unique_id <$> agents (world m)
       ∧ ∀ rs ts,
           agents (world m) = (AResource <$> rs) ++ (ATrader <$> ts) →
           one_phase (names_resource (world m)
                        <$> activations (tick_log trader_step m)))
  ∧ (parallel_stepping m = false →
       activations (tick_log trader_step m)
       = (shuffle (unique_id <$> agents (world m)) (random m)).1).
Proof.
  intros Hnd. rewrite activations_tick_log.
  pose proof (activation_order_Permutation m) as Hperm.
  split; [exact Hperm|]. split; [|split].
  - intros a Hin _. apply once_in_NoDup.
    + by rewrite Hperm.
    + rewrite Hperm. by apply list_elem_of_fmap_2.
  - intros Hpar. unfold activation_order, parallel_order. rewrite Hpar.
    cbn [fst]. split; [done|]. intros rs ts Hagents.
    rewrite names_resource_agents by done.
    rewrite Hagents, is_resource_resources_then_traders.
    apply one_phase_true_then_false.
  - intros Hseq. unfold activation_order. by rewrite Hseq.
Qed.

End Tick.

(** C4, counterexample: [SugarScapeModel(initial_traders=2,
    initial_resources=1, width=5, height=5, vision=1,
    parallel_stepping=False, seed=6)]: the shuffle of [random.Random(6)]
    makes the first tick activate trader 2, then resource 1, then trader 3;
    the resource is stepped between two traders. *)
Lemma regrowth_between_two_traders : ¬ regrow_in_one_phase idle.
Proof.
  intros Hclaim. specialize (Hclaim (seeded_model false 6)).
  vm_compute in Hclaim. exact Hclaim.
Qed.

(** The amended statement at the models of seed 6, with and without
    [parallel_stepping]. *)
Lemma resources_step_in_the_activation_pass_witness :
  activations (tick_log idle (seeded_model true 6)) = [1; 2; 3]
  ∧ one_phase (names_resource (world (seeded_model true 6))
                 <$> activations (tick_log idle (seeded_model true 6)))
  ∧ activations (tick_log idle (seeded_model false 6)) = [2; 1; 3]
  ∧ length (filter (λ uid, uid = 1)
              (activations (tick_log idle (seeded_model false 6)))) = 1%nat.
Proof.
  assert (∀ par, unique_id <$> agents (world (seeded_model par 6))
                 = [1; 2; 3]) as Hids.
  { intros par. destruct par; vm_compute; reflexivity. }
  assert (∀ par, NoDup (unique_id <$> agents (world (seeded_model par 6))))
    as Hnd.
  { intros par. rewrite Hids. apply NoDup_ListNoDup.
    repeat constructor; cbn; intuition discriminate. }
  destruct (resources_step_in_the_activation_pass idle (seeded_model true 6)
              (Hnd true)) as (_ & _ & Hpar & _).
  destruct (Hpar eq_refl) as [Horder Hphase].
  destruct (resources_step_in_the_activation_pass idle (seeded_model false 6)
              (Hnd false)) as (_ & Honce & _ & Hseq).
  split; [rewrite Horder; apply Hids|].
  split.
  { apply (Hphase (ModelReadings.resources_of
                     (agents (world (seeded_model true 6))))
                  (traders_of (agents (world (seeded_model true 6))))).
    vm_compute. reflexivity. }
  split; [rewrite (Hseq eq_refl); vm_compute; reflexivity|].
  apply (Honce resource1).
  - apply list_elem_of_In. vm_compute. left. reflexivity.
  - exact I.
Defined.

(** C1, the code at the failing input: the same seed (42), the same
    configuration and the same stub, in two processes whose [random] module
    is in different states, give different inventories: the stocks and
    metabolisms are drawn from the module-level [random], not from the
    sources that the seed initialises. *)
Theorem same_seed_different_inventories :
  inventories <$> run idle 1 42 (table [])
  = Some [(2, 50, 50, [], []); (3, 50, 50, [], [])]
  ∧ inventories <$> run idle 1 42 (table [0; 0; 0; 0; 7; 9])
    = Some [(2, 57, 59, [], []); (3, 50, 50, [], [])]
  ∧ ¬ seeded_runs_agree toy_random toy_numpy idle.
Proof.
  split; [reflexivity|]. split; [reflexivity|].
  intros Hclaim.
  specialize (Hclaim 2%nat 1%nat 1%nat 5 5 1 true 42
                (table []) (table [0; 0; 0; 0; 7; 9])).
  vm_compute in Hclaim. discriminate Hclaim.
Qed.

(** ** The traders built by [__init__] *)

Lemma length_integers low high size g :
  length (integers low high size g).1 = size.
Proof.
  revert g. induction size as [|size IH]; intros g; [done|].
  cbn [integers]. destruct (randrange _ g) as [r g1].
  specialize (IH g1). destruct (integers low high size g1) as [rs g2].
  cbn in *. by rewrite IH.
Qed.




Lemma traders_of_app rs ts :
  traders_of ((AResource <$> rs) ++ (ATrader <$> ts)) = ts.
Proof.
  unfold traders_of. rewrite omap_app.
  assert (omap (λ a, match a with ATrader t => Some t | AResource _ => None end)
            (AResource <$> rs) = []) as ->.
  { induction rs as [|r rs IH]; [done|]. by cbn. }
  cbn. induction ts as [|t ts IH]; [done|]. cbn. by f_equal.
Qed.



Lemma init_traders_pos uids x_pos y_pos vision ambient :
  length x_pos = length uids → length y_pos = length uids →
  t_pos <$> (init_traders uids x_pos y_pos vision ambient).1
  = zip x_pos y_pos.
Proof.
  revert x_pos y_pos ambient.
  induction uids as [|uid uids IH]; intros x_pos y_pos ambient Hx Hy.
  { by destruct x_pos. }
  destruct x_pos as [|i x_pos], y_pos as [|j y_pos]; try done.
  cbn [init_traders]. unfold init_trader.
  destruct (randint 50 100 ambient) as [su g1].
  destruct (randint 50 100 g1) as [sp g2].
  destruct (randint 1 4 g2) as [ms g3].
  destruct (randint 1 4 g3) as [mp g4].
  specialize (IH x_pos y_pos g4).
  destruct (init_traders uids x_pos y_pos vision g4) as [ts g5].
  cbn in *. rewrite IH; [done|lia..].
Qed.

(** What the seed does decide: the model's two sources and the cells of the
    traders are the same in any two processes. *)
Lemma seeded_part_ignores_ambient seed_random seed_numpy
    initial_traders initial_resources width height vision
    parallel_stepping seed ambient1 ambient2 m1 a1 m2 a2 :
  init seed_random seed_numpy initial_traders initial_resources
       width height vision parallel_stepping seed ambient1 = Some (m1, a1) →
  init seed_random seed_numpy initial_traders initial_resources
       width height vision parallel_stepping seed ambient2 = Some (m2, a2) →
  random m1 = random m2 ∧ rng m1 = rng m2
  ∧ t_pos <$> traders_of (agents (world m1))
    = t_pos <$> traders_of (agents (world m2)).
Proof.
  unfold init. case_bool_decide as Hgrid; [|done].
  destruct (new_resources _ _ _ _ ambient1) as [rs1 g1].
  destruct (new_resources _ _ _ _ ambient2) as [rs2 g2].
  pose proof (length_integers 0 width initial_traders (seed_numpy seed))
    as Hxlen.
  destruct (integers 0 width initial_traders (seed_numpy seed)) as [xs r1].
  pose proof (length_integers 0 height initial_traders r1) as Hylen.
  destruct (integers 0 height initial_traders r1) as [ys r2].
  set (uids := seqZ _ _).
  assert (length uids = initial_traders) as Hu.
  { unfold uids. rewrite length_seqZ. lia. }
  cbn in Hxlen, Hylen.
  pose proof (init_traders_pos uids xs ys vision g1) as Hp1.
  pose proof (init_traders_pos uids xs ys vision g2) as Hp2.
  destruct (init_traders uids xs ys vision g1) as [ts1 g1'].
  destruct (init_traders uids xs ys vision g2) as [ts2 g2'].
  intros [= <- <-] [= <- <-]. cbn [random rng world agents].
  rewrite !traders_of_app. cbn in Hp1, Hp2.
  rewrite Hp1, Hp2 by lia. done.
Qed.




End SugarScapeFacts.

(** * Properties of the role-wide tool managers *)

Module NegotiationAgentsFacts.
Import NegotiationAgents.

Lemma import_module_distinct h :
  seller_tool_manager (import_module h).1
  ≠ buyer_tool_manager (import_module h).1.
Proof.
  unfold import_module, new_tool_manager. cbn.
  intros Heq.
  pose proof (is_fresh (dom (<[fresh (dom h) := MkToolManager ∅]> h))) as Hf.
  rewrite <- Heq in Hf. apply Hf.
  rewrite dom_insert. apply elem_of_union. left. by apply elem_of_singleton.
Qed.

(** C10: after the module is imported, every seller, of whatever model, holds
    the address of the one [seller_tool_manager] and every buyer the address
    of the one [buyer_tool_manager], a different object; so a mutation of the
    registry made through one agent is what every agent of the same role
    sees, and agents of the other role do not see it. *)
Theorem tool_manager_is_shared_by_role (h0 : heap) :
  let g := (import_module h0).1 in
  let h1 := (import_module h0).2 in
  seller_tool_manager g ≠ buyer_tool_manager g
  ∧ (∀ m, registry_of (SellerAgent_init g m) h1 = Some ∅)
  ∧ (∀ m budget, registry_of (BuyerAgent_init g m budget) h1 = Some ∅)
  ∧ (∀ m, tool_manager (SellerAgent_init g m) = seller_tool_manager g)
  ∧ (∀ m budget, tool_manager (BuyerAgent_init g m budget)
                 = buyer_tool_manager g)
  ∧ (∀ m1 m2 f (h : heap),
       registry_of (SellerAgent_init g m2)
         (mutate_through (SellerAgent_init g m1) f h)
       = f <$> registry_of (SellerAgent_init g m1) h)
  ∧ (∀ m1 m2 b1 b2 f (h : heap),
       registry_of (BuyerAgent_init g m2 b2)
         (mutate_through (BuyerAgent_init g m1 b1) f h)
       = f <$> registry_of (BuyerAgent_init g m1 b1) h)
  ∧ (∀ m1 m2 b2 f (h : heap),
       registry_of (BuyerAgent_init g m2 b2)
         (mutate_through (SellerAgent_init g m1) f h)
       = registry_of (BuyerAgent_init g m2 b2) h).
Proof.
  cbn zeta. pose proof (import_module_distinct h0) as Hne.
  split; [exact Hne|].
  split.
  { intros m. unfold registry_of, import_module, new_tool_manager in *.
    cbn in *. rewrite lookup_insert_ne by done.
    by rewrite lookup_insert_eq. }
  split.
  { intros m budget. unfold registry_of, import_module, new_tool_manager.
    cbn. by rewrite lookup_insert_eq. }
  split; [done|]. split; [done|].
  unfold registry_of, mutate_through. cbn [tool_manager SellerAgent_init
    BuyerAgent_init].
  split; [|split].
  - intros m1 m2 f h. rewrite lookup_alter_eq.
    by destruct (h !! _).
  - intros m1 m2 b1 b2 f h. rewrite lookup_alter_eq.
    by destruct (h !! _).
  - intros m1 m2 b2 f h. by rewrite lookup_alter_ne.
Qed.

End NegotiationAgentsFacts.

(** * Properties of the trade protocol *)

Module TradeFacts.
Import TradeProtocol.
Local Open Scope Q_scope.

Lemma conserved_refl p : conserved p p.
Proof. by split. Qed.

Lemma conserved_trans p1 p2 p3 :
  conserved p1 p2 → conserved p2 p3 → conserved p1 p3.
Proof.
  intros [HA1 HB1] [HA2 HB2]. split.
  - by rewrite HA2, HA1.
  - by rewrite HB2, HB1.
Qed.

Lemma transfer_conserved buyer seller p q :
  conserved (buyer, seller) (transfer buyer seller p q).
Proof. split; cbn; ring. Qed.

Lemma conserved_swap a b a' b' :
  conserved (b, a) (b', a') → conserved (a, b) (a', b').
Proof.
  intros [HA HB]. split; cbn in *.
  - by rewrite (Qplus_comm (inventory_A a')), HA, Qplus_comm.
  - by rewrite (Qplus_comm (inventory_B a')), HB, Qplus_comm.
Qed.

Section Protocol.
Variable tolerance : Q.
Variable price_rule : Q → Q → Q.
Variable quantum : Q.

Lemma attempt_conserved buyer seller mb ms buyer' seller' :
  attempt price_rule quantum buyer seller mb ms = Some (buyer', seller') →
  conserved (buyer, seller) (buyer', seller').
Proof.
  unfold attempt.
  pose proof (transfer_conserved buyer seller (price_rule mb ms) quantum) as Hc.
  destruct (transfer buyer seller (price_rule mb ms) quantum) as [b' s'].
  destruct (feasible b' s' mb ms); [|done]. by intros [= <- <-].
Qed.

Lemma increment_conserved a b a' b' :
  increment tolerance price_rule quantum a b = Some (a', b') →
  conserved (a, b) (a', b').
Proof.
  unfold increment.
  destruct (compute_mrs a) as [ma|]; [|done].
  destruct (compute_mrs b) as [mb|]; [|done].
  destruct (Qle_bool (Qabs (ma - mb)) tolerance); [done|].
  destruct (Qle_bool mb ma).
  - apply attempt_conserved.
  - destruct (attempt price_rule quantum b a mb ma) as [[b'' a'']|] eqn:Hatt;
      [|done].
    cbn. intros [= <- <-]. apply conserved_swap.
    by eapply attempt_conserved.
Qed.

Lemma negotiate_conserved cap a b :
  conserved (a, b) (negotiate tolerance price_rule quantum cap a b).
Proof.
  revert a b. induction cap as [|cap IH]; intros a b; [apply conserved_refl|].
  cbn [negotiate].
  destruct (increment tolerance price_rule quantum a b) as [[a' b']|] eqn:Hinc;
    [|apply conserved_refl].
  eapply conserved_trans; [|apply IH]. by apply increment_conserved.
Qed.

(** C5: every executed increment leaves the pair's total of good A and its
    total of good B unchanged, and so does a whole negotiation, whatever the
    price rule, the tolerance, the quantum and the cap. *)
Theorem trade_conserves_goods :
  (∀ a b a' b',
     increment tolerance price_rule quantum a b = Some (a', b') →
     conserved (a, b) (a', b'))
  ∧ (∀ cap a b,
       conserved (a, b) (negotiate tolerance price_rule quantum cap a b)).
Proof.
  split; [apply increment_conserved|apply negotiate_conserved].
Qed.

End Protocol.

(** The statement at the traders of the specification's example: one unit of
    good A changes hands at price 1, and nine increments run before the
    negotiation stops. *)
Lemma trade_conserves_goods_witness :
  (∃ a' b',
     increment (1 # 100) geometric_mean 1 poor_in_A rich_in_A = Some (a', b')
     ∧ inventory_A a' == 9 ∧ inventory_A b' == 91
     ∧ conserved (poor_in_A, rich_in_A) (a', b'))
  ∧ length (price_history
              (negotiate (1 # 100) geometric_mean 1 20 poor_in_A rich_in_A).1)
    = 9%nat
  ∧ conserved (poor_in_A, rich_in_A)
      (negotiate (1 # 100) geometric_mean 1 20 poor_in_A rich_in_A).
Proof.
  destruct (trade_conserves_goods (1 # 100) geometric_mean 1) as [Hinc Hneg].
  split.
  - destruct (increment (1 # 100) geometric_mean 1 poor_in_A rich_in_A)
      as [[a' b']|] eqn:Hstep; [|vm_compute in Hstep; discriminate Hstep].
    exists a', b'. split; [reflexivity|].
    pose proof (Hinc _ _ _ _ Hstep) as Hcons.
    vm_compute in Hstep. injection Hstep as <- <-.
    split; [reflexivity|]. split; [reflexivity|]. exact Hcons.
  - split; [reflexivity|]. apply Hneg.
Defined.

End TradeFacts.

(** * Further properties of the dialogue digest *)

Module DigestFacts.
Import Negotiation DialogueExamples.

Lemma length_last_n {A} (n : nat) (l : list A) :
  length (last_n n l) = (n `min` length l)%nat.
Proof. unfold last_n. rewrite length_drop. lia. Qed.

Lemma drop_suffix_mono {A} (a b : nat) (l : list A) :
  (b ≤ a)%nat → drop a l `suffix_of` drop b l.
Proof.
  intros Hba. replace a with (b + (a - b))%nat by lia.
  rewrite <- drop_drop. apply suffix_drop.
Qed.

Lemma filter_suffix {A} (P : A → bool) (l1 l2 : list A) :
  l1 `suffix_of` l2 → filter P l1 `suffix_of` filter P l2.
Proof. intros [k ->]. rewrite filter_app. by apply suffix_app_r. Qed.

Lemma fmap_suffix {A B} (f : A → B) (l1 l2 : list A) :
  l1 `suffix_of` l2 → f <$> l1 `suffix_of` f <$> l2.
Proof. intros [k ->]. rewrite fmap_app. by apply suffix_app_r. Qed.

(** The last [n] of a tail are a tail of the last [n'] of the whole, for
    [n ≤ n']. *)
Lemma last_n_suffix_mono {A} (n n' : nat) (l1 l2 : list A) :
  (n ≤ n')%nat → l1 `suffix_of` l2 → last_n n l1 `suffix_of` last_n n' l2.
Proof.
  intros Hn [k ->]. destruct (decide (n' ≤ length l1)%nat) as [Hle|Hgt].
  - rewrite NegotiationFacts.last_n_app_ge by done.
    unfold last_n. apply drop_suffix_mono. lia.
  - unfold last_n at 2. rewrite length_app, drop_app_le by lia.
    apply suffix_app_r. apply suffix_drop.
Qed.

(** The window is a tail of the memory, whatever [max_messages]. *)
Lemma window_suffix mx (source : list MemoryEntry) :
  window mx source `suffix_of` source.
Proof. unfold window, slice_from. case_bool_decide; apply suffix_drop. Qed.

Lemma window_suffix_mono mx mx' (source : list MemoryEntry) :
  0 < mx ≤ mx' → window mx source `suffix_of` window mx' source.
Proof.
  intros Hmx. rewrite !NegotiationFacts.window_positive by lia.
  unfold last_n. apply drop_suffix_mono. lia.
Qed.

(** X1: the digest never has more than [max_messages] lines, and never more
    lines than the window has entries, whatever the memory. *)
Theorem digest_has_at_most_max_messages_lines agent mx :
  (length (collected agent mx) ≤ Z.to_nat mx)%nat
  ∧ (length (collected agent mx) ≤ Z.to_nat (mx * 2))%nat
  ∧ ∀ source, memory_source agent = Some source →
      (length (collected agent mx) ≤ length source)%nat.
Proof.
  assert (∀ source, memory_source agent = Some source →
    (length (collected agent mx) ≤ Z.to_nat mx)%nat
    ∧ (length (collected agent mx) ≤ length source)%nat) as Hsome.
  { intros source Hsrc.
    rewrite (NegotiationFacts.collected_spec _ _ _ Hsrc), length_fmap,
      length_last_n.
    pose proof (length_filter is_dialogue (window mx source)) as Hf.
    pose proof (suffix_length _ _ (window_suffix mx source)) as Hw.
    lia. }
  destruct (memory_source agent) as [source|] eqn:Hsrc.
  - destruct (Hsome source eq_refl) as [Hmx Hlen].
    split; [done|]. split; [lia|]. by intros ? [= <-].
  - assert (collected agent mx = []) as ->
      by (unfold collected; by rewrite Hsrc).
    cbn. split; [lia|]. split; [lia|]. done.
Qed.

(** X2: the digest is always a tail of the conversation: the lines of the
    memory's dialogue entries, in their order, from some point to the most
    recent one, with no message left out in between. *)
Theorem digest_is_the_tail_of_the_conversation agent mx source :
  memory_source agent = Some source →
  collected agent mx
    `suffix_of` format_line agent <$> filter is_dialogue source.
Proof.
  intros Hsrc. rewrite (NegotiationFacts.collected_spec _ _ _ Hsrc).
  apply fmap_suffix. etrans; [apply suffix_drop|].
  apply filter_suffix, window_suffix.
Qed.

Lemma digest_is_the_tail_of_the_conversation_witness :
  collected (with_stm interleaved) 2
    `suffix_of` format_line (with_stm interleaved)
                  <$> filter is_dialogue interleaved.
Proof.
  apply (digest_is_the_tail_of_the_conversation (with_stm interleaved) 2).
  reflexivity.
Defined.

Lemma digest_has_at_most_max_messages_lines_witness :
  (length (collected (with_stm observations_then_messages) 3) ≤ 3)%nat
  ∧ (length (collected (with_stm observations_then_messages) 3) ≤ 20)%nat.
Proof.
  destruct (digest_has_at_most_max_messages_lines
              (with_stm observations_then_messages) 3) as (Hmx & _ & Hlen).
  split; [exact Hmx|].
  exact (Hlen observations_then_messages eq_refl).
Defined.

(** X3: entries older than the [2 * max_messages] most recent ones have no
    influence: two agents of one model whose memories end with the same
    [2 * max_messages] entries get the same digest. *)
Theorem entries_before_the_window_do_not_matter
    self1 self2 mdl rest1 rest2 old recent mx :
  0 < mx → (Z.to_nat (mx * 2) ≤ length recent)%nat →
  get_dialogue_history
    (MkAgent self1 (MkMemory (Some (old ++ recent)) rest1) mdl) mx
  = get_dialogue_history
      (MkAgent self2 (MkMemory (Some recent) rest2) mdl) mx.
Proof.
  intros Hmx Hlen. rewrite !NegotiationFacts.history_of_collected.
  set (a1 := MkAgent self1 (MkMemory (Some (old ++ recent)) rest1) mdl).
  set (a2 := MkAgent self2 (MkMemory (Some recent) rest2) mdl).
  assert (collected a1 mx = collected a2 mx) as ->; [|done].
  rewrite (NegotiationFacts.collected_spec a1 mx (old ++ recent) eq_refl),
    (NegotiationFacts.collected_spec a2 mx recent eq_refl).
  rewrite !NegotiationFacts.window_positive by done.
  by rewrite NegotiationFacts.last_n_app_ge.
Qed.

Lemma entries_before_the_window_do_not_matter_witness :
  get_dialogue_history (with_stm (twelve_messages ++ interleaved)) 5
  = get_dialogue_history (with_stm (drop 10 interleaved)) 5.
Proof.
  change interleaved with (take 10 interleaved ++ drop 10 interleaved) at 1.
  rewrite (app_assoc twelve_messages).
  apply entries_before_the_window_do_not_matter; [lia|vm_compute; lia].
Defined.

Lemma last_n_all {A} (n : nat) (l : list A) :
  (length l ≤ n)%nat → last_n n l = l.
Proof.
  intros Hn. unfold last_n. by replace (length l - n)%nat with 0%nat by lia.
Qed.

(** X4: for any positive [max_messages], when the memory has at most
    [2 * max_messages] entries, or at least [max_messages] of its
    [2 * max_messages] most recent entries are dialogue entries, the digest
    is exactly the [max_messages] most recent dialogue entries of the whole
    memory, oldest first. *)
Theorem digest_is_exact_when_the_window_suffices agent mx source :
  0 < mx → memory_source agent = Some source →
  (length source ≤ Z.to_nat (mx * 2))%nat
  ∨ (Z.to_nat mx ≤ length (filter is_dialogue (window mx source)))%nat →
  collected agent mx
  = format_line agent <$> last_n (Z.to_nat mx) (filter is_dialogue source).
Proof.
  intros Hmx Hsrc Hcase.
  rewrite (NegotiationFacts.collected_spec _ _ _ Hsrc). f_equal.
  destruct Hcase as [Hshort|Henough].
  - rewrite NegotiationFacts.window_positive by lia.
    by rewrite (last_n_all _ source).
  - rewrite NegotiationFacts.window_positive in Henough |- * by lia.
    by apply NegotiationFacts.last_n_filter_window.
Qed.

Lemma digest_is_exact_when_the_window_suffices_witness :
  collected (with_stm interleaved) 3
  = format_line (with_stm interleaved) <$> drop 9 twelve_messages.
Proof.
  rewrite (digest_is_exact_when_the_window_suffices
             (with_stm interleaved) 3 interleaved);
    [reflexivity|lia|reflexivity|right; vm_compute; lia].
Defined.

Lemma collected_lines_are_dashed agent mx line :
  line ∈ collected agent mx → ∃ rest, line = String "-" rest.
Proof.
  destruct (memory_source agent) as [source|] eqn:Hsrc.
  - rewrite (NegotiationFacts.collected_spec _ _ _ Hsrc).
    intros (e & -> & _)%list_elem_of_fmap. by eexists.
  - unfold collected. rewrite Hsrc. cbn. by intros ?%elem_of_nil.
Qed.

(** X5: the sentinel is unambiguous: the result is "No recent dialogue."
    exactly when no line was collected; a digest with lines starts with the
    dash of its first line. *)
Theorem sentinel_means_nothing_collected agent mx :
  get_dialogue_history agent mx = sentinel ↔ collected agent mx = [].
Proof.
  rewrite NegotiationFacts.history_of_collected. split.
  - case_decide as Hnil; [done|]. intros Hres.
    destruct (collected agent mx) as [|line lines] eqn:Hcol; [done|].
    destruct (collected_lines_are_dashed agent mx line) as [rest ->].
    { rewrite Hcol. by left. }
    destruct lines; cbn in Hres; discriminate Hres.
  - intros ->. by rewrite decide_True.
Qed.

(** X6: raising [max_messages] only adds older lines in front: the digest
    for a smaller bound is a tail of the digest for a larger one. *)
Theorem digest_grows_at_the_front agent mx mx' :
  mx ≤ mx' → collected agent mx `suffix_of` collected agent mx'.
Proof.
  intros Hle. destruct (memory_source agent) as [source|] eqn:Hsrc.
  - rewrite !(NegotiationFacts.collected_spec _ _ _ Hsrc).
    apply fmap_suffix.
    destruct (decide (0 < mx)) as [Hpos|Hneg].
    + apply last_n_suffix_mono; [lia|].
      apply filter_suffix, window_suffix_mono. lia.
    + unfold last_n at 1. replace (Z.to_nat mx) with 0%nat by lia.
      rewrite Nat.sub_0_r, drop_all. apply suffix_nil.
  - unfold collected. by rewrite Hsrc.
Qed.

Lemma digest_grows_at_the_front_witness :
  collected (with_stm messages_then_observations) 5
    `suffix_of` collected (with_stm messages_then_observations) 8.
Proof. apply digest_grows_at_the_front. lia. Defined.

End DigestFacts.

(** * Further properties of the SugarScape model *)

Module ModelFacts.
Import SugarScape SugarScapeExamples ModelReadings.

(** ** [flatten] *)

Lemma flatten_concat {A} (ll : list (list A)) : flatten ll = concat ll.
Proof.
  unfold flatten. induction ll as [|l ll IH]; [done|].
  cbn. rewrite IH. f_equal.
  induction l as [|x l IHl]; [done|]. cbn. by f_equal.
Qed.


(** X8: the list handed to [geometric_mean] by the "Price" reporter is empty
    exactly when no trader of the model has a price in its history. *)
Theorem price_samples_empty_iff_no_trade (w : World) :
  price_samples w = [] ↔
  ∀ t, t ∈ traders_of (agents w) → prices t = [].
Proof.
  unfold price_samples. rewrite flatten_concat.
  induction (traders_of (agents w)) as [|t ts IH].
  - cbn. split; [|done]. by intros _ t ?%elem_of_nil.
  - cbn. split.
    + intros [Ht Hts]%app_eq_nil t' [->|Hin]%elem_of_cons; [done|].
      by apply IH.
    + intros Hall. rewrite (Hall t) by (by left). cbn.
      apply IH. intros t' Hin. apply Hall. by right.
Qed.

(** ** Counting draws *)

Lemma advanced_refl g : advanced 0 g g.
Proof. split; [done|lia]. Qed.

Lemma advanced_trans k1 k2 g1 g2 g3 :
  advanced k1 g1 g2 → advanced k2 g2 g3 → advanced (k1 + k2) g1 g3.
Proof. intros [Hr1 Hc1] [Hr2 Hc2]. split; [congruence|lia]. Qed.

Lemma randrange_advanced n g : advanced 1 g (randrange n g).2.
Proof. split; cbn; [done|lia]. Qed.

Lemma randint_advanced a b g : advanced 1 g (randint a b g).2.
Proof. split; cbn; [done|lia]. Qed.

Lemma choice_advanced {A} (d : A) l g : advanced 1 g (choice d l g).2.
Proof. split; cbn; [done|lia]. Qed.

Lemma integers_spec low high size g :
  low < high →
  Forall (λ z, low ≤ z < high) (integers low high size g).1
  ∧ advanced size g (integers low high size g).2.
Proof.
  intros Hlh. revert g. induction size as [|size IH]; intros g.
  { split; [by cbn|apply advanced_refl]. }
  cbn [integers].
  pose proof (SugarScapeFacts.randrange_bounds (high - low) g) as Hr.
  pose proof (randrange_advanced (high - low) g) as Ha.
  destruct (randrange (high - low) g) as [r g1].
  destruct (IH g1) as [Hall Hadv].
  destruct (integers low high size g1) as [rs g2]. cbn [fst snd] in *.
  split; [constructor; [lia|done]|].
  replace (S size) with (1 + size)%nat by lia. by eapply advanced_trans.
Qed.

(** ** The resources built by [__init__] *)

Lemma new_resource_spec uid width height g :
  0 < width → 0 < height →
  fresh_resource width height (new_resource uid width height g).1
  ∧ r_unique_id (new_resource uid width height g).1 = uid
  ∧ advanced 4 g (new_resource uid width height g).2.
Proof.
  intros Hw Hh. unfold new_resource.
  pose proof (SugarScapeFacts.randint_bounds 2 5 g) as Hcap.
  pose proof (randint_advanced 2 5 g) as Ha1.
  destruct (randint 2 5 g) as [cap g1].
  pose proof (choice_advanced Sugar [Sugar; Spice] g1) as Ha2.
  destruct (choice Sugar [Sugar; Spice] g1) as [ty g2].
  pose proof (SugarScapeFacts.randrange_bounds width g2 Hw) as Hx.
  pose proof (randrange_advanced width g2) as Ha3.
  destruct (randrange width g2) as [x g3].
  pose proof (SugarScapeFacts.randrange_bounds height g3 Hh) as Hy.
  pose proof (randrange_advanced height g3) as Ha4.
  destruct (randrange height g3) as [y g4].
  cbn [fst snd] in *. split; [|split; [done|]].
  - unfold fresh_resource, in_grid. cbn. lia.
  - change 4%nat with (1 + (1 + (1 + 1)))%nat.
    eauto using advanced_trans.
Qed.

Lemma new_resources_spec n next_id width height g :
  0 < width → 0 < height →
  Forall (fresh_resource width height)
    (new_resources n next_id width height g).1
  ∧ r_unique_id <$> (new_resources n next_id width height g).1
    = seqZ next_id (Z.of_nat n)
  ∧ advanced (4 * n) g (new_resources n next_id width height g).2.
Proof.
  intros Hw Hh. revert next_id g.
  induction n as [|n IH]; intros next_id g.
  { split; [by cbn|]. split; [done|apply advanced_refl]. }
  cbn [new_resources].
  destruct (new_resource_spec next_id width height g Hw Hh)
    as (Hfresh & Hid & Hadv).
  destruct (new_resource next_id width height g) as [r g1].
  destruct (IH (next_id + 1) g1) as (Hall & Hids & Hadvs).
  destruct (new_resources n (next_id + 1) width height g1) as [rs g2].
  cbn [fst snd] in *. split; [by constructor|]. split.
  - rewrite fmap_cons, Hid, Hids. rewrite (seqZ_cons next_id) by lia.
    f_equal. f_equal; lia.
  - replace (4 * S n)%nat with (4 + 4 * n)%nat by lia.
    by eapply advanced_trans.
Qed.

Lemma init_traders_spec uids x_pos y_pos vision g :
  length x_pos = length uids → length y_pos = length uids →
  t_unique_id <$> (init_traders uids x_pos y_pos vision g).1 = uids
  ∧ advanced (4 * length uids) g (init_traders uids x_pos y_pos vision g).2.
Proof.
  revert x_pos y_pos g.
  induction uids as [|uid uids IH]; intros x_pos y_pos g Hx Hy.
  { destruct x_pos; [|done]. split; [done|apply advanced_refl]. }
  destruct x_pos as [|i x_pos], y_pos as [|j y_pos]; try done.
  cbn [init_traders]. unfold init_trader.
  pose proof (randint_advanced 50 100 g) as Ha1.
  destruct (randint 50 100 g) as [su g1].
  pose proof (randint_advanced 50 100 g1) as Ha2.
  destruct (randint 50 100 g1) as [sp g2].
  pose proof (randint_advanced 1 4 g2) as Ha3.
  destruct (randint 1 4 g2) as [ms g3].
  pose proof (randint_advanced 1 4 g3) as Ha4.
  destruct (randint 1 4 g3) as [mp g4].
  destruct (IH x_pos y_pos g4) as [Hids Hadv]; [cbn in *; lia..|].
  destruct (init_traders uids x_pos y_pos vision g4) as [ts g5].
  cbn [fst snd] in *. split; [cbn; by rewrite Hids|].
  replace (4 * length (uid :: uids))%nat
    with (1 + (1 + (1 + (1 + 4 * length uids))))%nat by (cbn [length]; lia).
  repeat (eapply advanced_trans; [eassumption|]). exact Hadv.
Qed.

(** The constructor, taken apart. *)
Lemma init_inv seed_random seed_numpy
    initial_traders initial_resources width height vision
    parallel_stepping seed ambient
    m ambient' :
  init seed_random seed_numpy initial_traders initial_resources
       width height vision parallel_stepping seed ambient = Some (m, ambient') →
  ∃ rs g1 x_pos r1 y_pos r2 ts,
    0 < width ∧ 0 < height
    ∧ new_resources initial_resources 1 width height ambient = (rs, g1)
    ∧ integers 0 width initial_traders (seed_numpy seed) = (x_pos, r1)
    ∧ integers 0 height initial_traders r1 = (y_pos, r2)
    ∧ init_traders (seqZ (1 + Z.of_nat initial_resources)
                         (Z.of_nat initial_traders))
        x_pos y_pos vision g1 = (ts, ambient')
    ∧ m = MkModel width height parallel_stepping
            (MkWorld ((AResource <$> rs) ++ (ATrader <$> ts)) 0 0 0 0)
            (seed_random seed) r2 [] [].
Proof.
  unfold init. case_bool_decide as Hgrid; [|done].
  destruct (new_resources _ _ _ _ ambient) as [rs g1] eqn:Hrs.
  destruct (integers 0 width initial_traders (seed_numpy seed)) as [xs r1]
    eqn:Hxs.
  destruct (integers 0 height initial_traders r1) as [ys r2] eqn:Hys.
  destruct (init_traders _ xs ys vision g1) as [ts g2] eqn:Hts.
  intros [= <- <-]. exists rs, g1, xs, r1, ys, r2, ts.
  destruct Hgrid as [Hw Hh]. repeat split; done.
Qed.

Lemma resources_of_app rs ts :
  resources_of ((AResource <$> rs) ++ (ATrader <$> ts)) = rs.
Proof.
  unfold resources_of. rewrite omap_app.
  assert (omap (λ a, match a with AResource r => Some r | ATrader _ => None end)
            (ATrader <$> ts) = []) as ->.
  { induction ts as [|t ts IH]; [done|]. by cbn. }
  rewrite app_nil_r. induction rs as [|r rs IH]; [done|]. cbn. by f_equal.
Qed.

(** X9: the constructor creates [initial_resources] resources; each has a
    capacity of 2 to 5, is full, grows back 1 per tick and stands on a cell
    of the grid. *)
Theorem constructed_resources_are_full_and_in_grid
    seed_random seed_numpy initial_traders initial_resources
    width height vision parallel_stepping seed ambient m ambient' :
  init seed_random seed_numpy initial_traders initial_resources
       width height vision parallel_stepping seed ambient = Some (m, ambient') →
  length (resources_of (agents (world m))) = initial_resources
  ∧ ∀ r, r ∈ resources_of (agents (world m)) →
      2 ≤ max_capacity r ≤ 5 ∧ current_amount r = max_capacity r
      ∧ growback r = 1 ∧ in_grid (width) (height) (r_pos r).
Proof.
  intros (rs & g1 & xs & r1 & ys & r2 & ts & Hw & Hh & Hrs & _ & _ & _ & ->)
    %init_inv.
  cbn [world agents]. rewrite resources_of_app.
  destruct (new_resources_spec initial_resources 1 width height ambient Hw Hh)
    as (Hall & Hids & _).
  rewrite Hrs in Hall, Hids. cbn in Hall, Hids. split.
  - rewrite <- (length_fmap r_unique_id), Hids, length_seqZ. lia.
  - intros r Hin. rewrite Forall_forall in Hall. exact (Hall r Hin).
Qed.

Lemma constructed_resources_are_full_and_in_grid_witness :
  small_model 42 (table []) = Some (built 42 (table []), MkRng (raw (table [])) 12)
  ∧ length (resources_of (agents (world (built 42 (table []))))) = 1%nat
  ∧ in_grid 5 5 (0, 0).
Proof.
  assert (small_model 42 (table [])
          = Some (built 42 (table []), MkRng (raw (table [])) 12)) as Hinit
    by reflexivity.
  destruct (constructed_resources_are_full_and_in_grid _ _ _ _ _ _ _ _ _ _ _ _
              Hinit) as [Hlen Hall].
  split; [exact Hinit|]. split; [exact Hlen|].
  apply (Hall (MkResource 1 2 2 1 Sugar (0, 0))).
  apply list_elem_of_In. left. reflexivity.
Defined.

(** X10: every trader is placed on a cell of the model's grid: the
    coordinates drawn from [self.rng] are within [0, width) and
    [0, height). *)
Theorem constructed_traders_are_in_grid
    seed_random seed_numpy initial_traders initial_resources
    width height vision parallel_stepping seed ambient m ambient' :
  init seed_random seed_numpy initial_traders initial_resources
       width height vision parallel_stepping seed ambient = Some (m, ambient') →
  ∀ t, t ∈ traders_of (agents (world m)) →
    in_grid (SugarScape.width m) (SugarScape.height m) (t_pos t).
Proof.
  intros (rs & g1 & xs & r1 & ys & r2 & ts & Hw & Hh & _ & Hxs & Hys & Hts
          & ->)%init_inv t.
  cbn [world agents SugarScape.width SugarScape.height].
  rewrite SugarScapeFacts.traders_of_app. intros Hin.
  destruct (integers_spec 0 width initial_traders (seed_numpy seed) Hw)
    as [Hxall _].
  destruct (integers_spec 0 height initial_traders r1 Hh) as [Hyall _].
  pose proof (SugarScapeFacts.length_integers 0 width initial_traders
                (seed_numpy seed)) as Hxlen.
  pose proof (SugarScapeFacts.length_integers 0 height initial_traders r1)
    as Hylen.
  rewrite Hxs in Hxall, Hxlen. rewrite Hys in Hyall, Hylen.
  cbn [fst] in *.
  pose proof (SugarScapeFacts.init_traders_pos
                (seqZ (1 + Z.of_nat initial_resources)
                      (Z.of_nat initial_traders)) xs ys vision g1) as Hpos.
  rewrite Hts in Hpos. cbn [fst] in Hpos.
  assert (t_pos t ∈ zip xs ys) as Hzip.
  { rewrite <- Hpos by (rewrite length_seqZ; lia).
    by apply list_elem_of_fmap_2. }
  destruct (t_pos t) as [x y]. rewrite Forall_forall in Hxall, Hyall.
  split; cbn.
  - apply Hxall. by eapply elem_of_zip_l.
  - apply Hyall. by eapply elem_of_zip_r.
Qed.

Lemma constructed_traders_are_in_grid_witness :
  in_grid 5 5 (3, 1).
Proof.
  assert (small_model 42 (table [])
          = Some (built 42 (table []), MkRng (raw (table [])) 12)) as Hinit
    by reflexivity.
  apply (constructed_traders_are_in_grid _ _ _ _ _ _ _ _ _ _ _ _ Hinit
           (MkTrader 2 1 50 50 1 1 [] [] (3, 1))).
  apply list_elem_of_In. left. reflexivity.
Defined.

(** X11: a freshly built model holds its resources first and its traders
    after them, [initial_resources + initial_traders] agents with distinct
    identities; its four harvest counters are zero and nothing has been
    collected yet. *)
Theorem constructed_agent_set
    seed_random seed_numpy initial_traders initial_resources
    width height vision parallel_stepping seed ambient m ambient' :
  init seed_random seed_numpy initial_traders initial_resources
       width height vision parallel_stepping seed ambient = Some (m, ambient') →
  agents (world m)
  = (AResource <$> resources_of (agents (world m)))
    ++ (ATrader <$> traders_of (agents (world m)))
  ∧ length (agents (world m)) = (initial_resources + initial_traders)%nat
  ∧ NoDup (unique_id <$> agents (world m))
  ∧ total_sugar_harvested (world m) = 0 ∧ total_spice_harvested (world m) = 0
  ∧ step_sugar_harvest (world m) = 0 ∧ step_spice_harvest (world m) = 0
  ∧ datacollector m = [].
Proof.
  intros (rs & g1 & xs & r1 & ys & r2 & ts & Hw & Hh & Hrs & Hxs & Hys & Hts
          & ->)%init_inv.
  cbn [world agents datacollector total_sugar_harvested
       total_spice_harvested step_sugar_harvest step_spice_harvest].
  rewrite resources_of_app, SugarScapeFacts.traders_of_app.
  destruct (new_resources_spec initial_resources 1 width height ambient Hw Hh)
    as (_ & Hrids & _).
  rewrite Hrs in Hrids. cbn [fst] in Hrids.
  pose proof (SugarScapeFacts.length_integers 0 width initial_traders
                (seed_numpy seed)) as Hxlen.
  pose proof (SugarScapeFacts.length_integers 0 height initial_traders r1)
    as Hylen.
  rewrite Hxs in Hxlen. rewrite Hys in Hylen. cbn [fst] in *.
  destruct (init_traders_spec
              (seqZ (1 + Z.of_nat initial_resources)
                    (Z.of_nat initial_traders)) xs ys vision g1)
    as [Htids _]; [rewrite length_seqZ; lia..|].
  rewrite Hts in Htids. cbn [fst] in Htids.
  assert (unique_id <$> (AResource <$> rs) ++ (ATrader <$> ts)
          = seqZ 1 (Z.of_nat initial_resources + Z.of_nat initial_traders))
    as Hids.
  { rewrite fmap_app, <- !list_fmap_compose.
    change (unique_id ∘ AResource) with r_unique_id.
    change (unique_id ∘ ATrader) with t_unique_id.
    rewrite Hrids, Htids, seqZ_app by lia. done. }
  split; [done|]. split.
  - rewrite <- (length_fmap unique_id), Hids, length_seqZ. lia.
  - split; [|done]. rewrite Hids. apply NoDup_seqZ.
Qed.

Lemma constructed_agent_set_witness :
  length (agents (world (built 42 (table [])))) = 3%nat
  ∧ NoDup (unique_id <$> agents (world (built 42 (table [])))).
Proof.
  assert (small_model 42 (table [])
          = Some (built 42 (table []), MkRng (raw (table [])) 12)) as Hinit
    by reflexivity.
  destruct (constructed_agent_set _ _ _ _ _ _ _ _ _ _ _ _ Hinit)
    as (_ & Hlen & Hnd & _).
  split; [exact Hlen|exact Hnd].
Defined.

(** X12: the constructor draws four numbers per resource and four per trader
    from the module-level [random], two per trader from [self.rng], and none
    from [self.random]. *)
Theorem constructor_draws
    seed_random seed_numpy initial_traders initial_resources
    width height vision parallel_stepping seed ambient m ambient' :
  init seed_random seed_numpy initial_traders initial_resources
       width height vision parallel_stepping seed ambient = Some (m, ambient') →
  advanced (4 * initial_resources + 4 * initial_traders) ambient ambient'
  ∧ advanced (2 * initial_traders) (seed_numpy seed) (rng m)
  ∧ random m = seed_random seed.
Proof.
  intros (rs & g1 & xs & r1 & ys & r2 & ts & Hw & Hh & Hrs & Hxs & Hys & Hts
          & ->)%init_inv.
  cbn [rng random].
  destruct (new_resources_spec initial_resources 1 width height ambient Hw Hh)
    as (_ & _ & Hadv1).
  rewrite Hrs in Hadv1. cbn [snd] in Hadv1.
  destruct (integers_spec 0 width initial_traders (seed_numpy seed) Hw)
    as [_ Hax].
  destruct (integers_spec 0 height initial_traders r1 Hh) as [_ Hay].
  pose proof (SugarScapeFacts.length_integers 0 width initial_traders
                (seed_numpy seed)) as Hxlen.
  pose proof (SugarScapeFacts.length_integers 0 height initial_traders r1)
    as Hylen.
  rewrite Hxs in Hax, Hxlen. rewrite Hys in Hay, Hylen. cbn [fst snd] in *.
  destruct (init_traders_spec
              (seqZ (1 + Z.of_nat initial_resources)
                    (Z.of_nat initial_traders)) xs ys vision g1)
    as [_ Hadv2]; [rewrite length_seqZ; lia..|].
  rewrite Hts, length_seqZ in Hadv2. cbn [snd] in Hadv2.
  replace (Z.to_nat (Z.of_nat initial_traders)) with initial_traders
    in Hadv2 by lia.
  split; [by eapply advanced_trans|]. split; [|done].
  replace (2 * initial_traders)%nat
    with (initial_traders + initial_traders)%nat by lia.
  by eapply advanced_trans.
Qed.

Lemma constructor_draws_witness :
  advanced (4 * 1 + 4 * 2) (table []) (MkRng (raw (table [])) 12)
  ∧ advanced (2 * 2) (toy_numpy 42) (rng (built 42 (table []))).
Proof.
  assert (small_model 42 (table [])
          = Some (built 42 (table []), MkRng (raw (table [])) 12)) as Hinit
    by reflexivity.
  destruct (constructor_draws _ _ _ _ _ _ _ _ _ _ _ _ Hinit)
    as (Hamb & Hrng & _).
  split; [exact Hamb|exact Hrng].
Defined.

(** ** Ticks *)

Lemma sum_Z_Permutation (l1 l2 : list Z) :
  l1 ≡ₚ l2 → sum_Z l1 = sum_Z l2.
Proof. unfold sum_Z. induction 1; cbn in *; lia. Qed.

Lemma sum_nat_Permutation (l1 l2 : list nat) :
  l1 ≡ₚ l2 → foldr Nat.add 0%nat l1 = foldr Nat.add 0%nat l2.
Proof. induction 1; cbn in *; lia. Qed.

(** X13: the row of the model reporters depends on the agent set only
    through its traders, whatever their order: resources, and the order of
    the agents, do not show in it. *)
Theorem reporters_see_traders_only (w1 w2 : World) :
  traders_of (agents w1) ≡ₚ traders_of (agents w2) →
  step_sugar_harvest w1 = step_sugar_harvest w2 →
  step_spice_harvest w1 = step_spice_harvest w2 →
  snapshot w1 = snapshot w2.
Proof.
  intros Hperm Hsu Hsp. unfold snapshot. rewrite Hsu, Hsp.
  f_equal.
  - by rewrite Hperm.
  - apply sum_Z_Permutation. by rewrite Hperm.
  - apply sum_Z_Permutation. by rewrite Hperm.
  - apply sum_nat_Permutation. by rewrite Hperm.
Qed.

Lemma reporters_see_traders_only_witness :
  snapshot (MkWorld (reverse (agents (world (built 42 (table [])))))
              7 7 0 0)
  = snapshot (world (built 42 (table []))).
Proof.
  apply reporters_see_traders_only; [|reflexivity..].
  vm_compute. apply Permutation_swap.
Defined.

Section Ticks.
Variable trader_step : Trader → World → World.

Local Abbreviation step := (step trader_step).
Local Abbreviation activate := (activate trader_step).

(** X15: what a tick does is independent of the step counters it starts
    with: nothing of the previous tick's harvest is carried into the world
    the agents act on, into the log of the tick or into the new row. *)
Theorem tick_forgets_the_step_counters m su sp :
  let m' := set_world (MkWorld (agents (world m))
                         (total_sugar_harvested (world m))
                         (total_spice_harvested (world m)) su sp) m in
  world (step m') = world (step m)
  ∧ tick_log trader_step m' = tick_log trader_step m
  ∧ last (datacollector (step m')) = last (datacollector (step m)).
Proof.
  cbn zeta.
  set (m' := set_world _ m).
  destruct (SugarScapeFacts.step_unfold trader_step m) as (Hw & _ & Hdc).
  destruct (SugarScapeFacts.step_unfold trader_step m') as (Hw' & _ & Hdc').
  cbn zeta in *.
  assert (world (step m') = world (step m)) as Heq.
  { rewrite Hw, Hw'. done. }
  split; [exact Heq|]. split.
  - rewrite !SugarScapeFacts.tick_log_unfold. cbn zeta. by rewrite Heq.
  - fold step in Hdc, Hdc'. rewrite Hdc, Hdc'. by rewrite !last_snoc.
Qed.

Lemma resets_app l1 l2 : resets (l1 ++ l2) = (resets l1 + resets l2)%nat.
Proof. unfold resets. by rewrite omap_app, length_app. Qed.

Lemma collects_app l1 l2 : collects (l1 ++ l2) = (collects l1 + collects l2)%nat.
Proof. unfold collects. by rewrite omap_app, length_app. Qed.

Lemma activations_only l :
  resets (EvActivate <$> l) = 0%nat ∧ collects (EvActivate <$> l) = 0%nat.
Proof. induction l as [|uid l IH]; [done|]. by cbn. Qed.

(** X16: [n] ticks reset the counters [n] times and call the data collector
    [n] times: the collector holds [n] more rows, one per tick, whatever the
    agents do. *)
Theorem n_ticks_collect_n_rows (n : nat) m :
  length (datacollector (Nat.iter n step m))
  = (length (datacollector m) + n)%nat
  ∧ resets (log (Nat.iter n step m)) = (resets (log m) + n)%nat
  ∧ collects (log (Nat.iter n step m)) = (collects (log m) + n)%nat.
Proof.
  induction n as [|n (IHd & IHr & IHc)]; [cbn; lia|].
  rewrite !Nat.iter_succ.
  destruct (SugarScapeFacts.step_unfold trader_step (Nat.iter n step m))
    as (_ & Hlog & Hdc).
  cbn zeta in *. fold step in Hlog, Hdc. rewrite Hlog, Hdc.
  rewrite length_app, !resets_app, !collects_app.
  destruct (activations_only
              (activation_order (Nat.iter n step m)).1) as [-> ->].
  cbn. lia.
Qed.

End Ticks.

End ModelFacts.

(** * Properties of the testing model *)

Module TestingModelFacts.
Import TestingModel.

Lemma string_app_length (s t : string) :
  String.length (s +:+ t) = (String.length s + String.length t)%nat.
Proof.
  induction s as [|c s IH]; [done|].
  change (String c s +:+ t) with (String c (s +:+ t)).
  cbn [String.length]. by rewrite IH.
Qed.

Lemma string_app_inj_r (s1 s2 t : string) :
  s1 +:+ t = s2 +:+ t → s1 = s2.
Proof.
  revert s2. induction s1 as [|c s1 IH]; intros [|c2 s2] Heq; [done|..].
  - apply (f_equal String.length) in Heq.
    rewrite !string_app_length in Heq. cbn in Heq. lia.
  - apply (f_equal String.length) in Heq.
    rewrite !string_app_length in Heq. cbn in Heq. lia.
  - change (String c (s1 +:+ t) = String c2 (s2 +:+ t)) in Heq.
    injection Heq as -> Heq. f_equal. by apply IH.
Qed.

Lemma prompt_inj u1 u2 : prompt u1 = prompt u2 → u1 = u2.
Proof.
  unfold prompt. intros Heq.
  apply (inj (String.app "You are agent ")) in Heq.
  apply string_app_inj_r in Heq. by apply (inj pretty).
Qed.

Section Llama.
Variable seed_random : Z → SugarScape.Rng.
Variable reply : nat → string → string.

Local Abbreviation agent_step := (agent_step reply).
Local Abbreviation step := (step reply).

Lemma foldl_agent_step m order :
  requests (foldl agent_step m order) = requests m ++ (prompt <$> order)
  ∧ length (stdout (foldl agent_step m order))
    = (length (stdout m) + length order)%nat
  ∧ agents (foldl agent_step m order) = agents m.
Proof.
  revert m. induction order as [|uid order IH]; intros m; cbn.
  { rewrite app_nil_r. split; [done|]. split; [lia|done]. }
  destruct (IH (agent_step m uid)) as (-> & -> & ->). cbn.
  rewrite <- app_assoc, length_app. cbn. split; [done|]. split; [lia|done].
Qed.

(** X17: one step of the testing model sends exactly one request per agent
    to the language model, the prompt of that agent, in the shuffled order,
    and prints one line per agent; the agent set is unchanged. *)
Theorem step_calls_the_model_once_per_agent m :
  ∃ order,
    order ≡ₚ agents m
    ∧ requests (step m) = requests m ++ (prompt <$> order)
    ∧ length (stdout (step m)) = (length (stdout m) + length (agents m))%nat
    ∧ agents (step m) = agents m.
Proof.
  unfold TestingModel.step.
  pose proof (SugarScapeFacts.shuffle_Permutation (agents m) (random m))
    as Hperm.
  destruct (SugarScape.shuffle (agents m) (random m)) as [order g].
  cbn [fst] in Hperm. exists order.
  destruct (foldl_agent_step
              (MkLanguageModel (agents m) g (requests m) (stdout m)) order)
    as (-> & -> & ->).
  cbn. split; [exact Hperm|]. split; [done|]. split; [|done].
  f_equal. by apply Permutation_length.
Qed.

(** X18: in the first step of [LanguageModel(n_agents, seed)] the
    [n_agents] requests are pairwise different: each agent's prompt names
    its own identity. *)
Theorem first_step_sends_distinct_prompts n_agents seed :
  let m := step (init seed_random n_agents seed) in
  length (requests m) = n_agents ∧ NoDup (requests m)
  ∧ requests m ≡ₚ prompt <$> seqZ 1 (Z.of_nat n_agents).
Proof.
  cbn zeta. unfold TestingModel.step, init. cbn [agents random requests stdout].
  pose proof (SugarScapeFacts.shuffle_Permutation
                (seqZ 1 (Z.of_nat n_agents)) (seed_random seed)) as Hperm.
  destruct (SugarScape.shuffle (seqZ 1 (Z.of_nat n_agents))
              (seed_random seed)) as [order g].
  cbn [fst] in Hperm.
  destruct (foldl_agent_step
              (MkLanguageModel (seqZ 1 (Z.of_nat n_agents)) g [] []) order)
    as (-> & _ & _).
  cbn [requests app].
  assert (prompt <$> order ≡ₚ prompt <$> seqZ 1 (Z.of_nat n_agents)) as Hp
    by (by rewrite Hperm).
  split; [|split; [|exact Hp]].
  - rewrite Hp, length_fmap, length_seqZ. lia.
  - rewrite Hp. apply NoDup_fmap_2; [|apply NoDup_seqZ].
    intros u1 u2. apply prompt_inj.
Qed.

End Llama.

End TestingModelFacts.
